(** * Configuration-driven model assembly: builders and the model life cycle

    A shallow embedding of [builder.py] (the three builder functions) and of
    [model.py] (the [ResNetDeepFashion] model: assembly, freezing, forward,
    training and validation steps), with the properties the design
    document states about them.

    Conventions.
    - A Python [dict] whose iteration order is not observed is a
      [gmap string value]; one whose order is observed (the keys of the
      dataset configuration, the keys a registry lists in its error
      message) is an association list.
    - A call that may raise returns a [result]; code that also mutates an
      object the caller can see returns the object's final state next to
      the [result], so a mutation made before an exception stays visible.
    - Collaborators that live outside the two source files (constructors
      stored in registries, [prepare_data], the numerical kernels of
      PyTorch) are parameters.
    - A configuration is a tree, as [json.load] builds it: two entries do
      not share a nested dict.
    - Parameters are objects in a store, named by their identity, so a
      flag set through one module is seen through every module that holds
      the parameter.  The [forward] of a module reads the store and does
      not write it; buffers, such as the running statistics of a batch
      normalisation, are not parameters and are not in the store. *)

From Stdlib Require Import ZArith QArith String List Lia.
From stdpp Require Import base option strings gmap list pretty.

#[local] Set Warnings "-register-all".
#[local] Open Scope string_scope.
#[local] Open Scope nat_scope.

(** ** Python values, exceptions and results *)

Module Py.

(** The values a configuration read from JSON can hold, and opaque
    run-time objects ([VObj]) such as the structures [prepare_data]
    returns. *)
Inductive value :=
  | VNone
  | VBool (b : bool)
  | VInt (z : Z)
  | VFloat (q : Q)
  | VStr (s : string)
  | VList (l : list value)
  | VDict (d : gmap string value)
  | VObj (o : positive).

(** The exceptions the modelled code can raise.  [UnsupportedType given
    valid] is the [ValueError] of the builders, whose message is
    [f'Unsupported model type: `{given}`. Must be one of \n{valid}']. *)
Inductive exn :=
  | KeyError (key : string)
  | TypeError (why : string)
  | AttributeError (attr : string)
  | IndexError (why : string)
  | UnboundLocalError (var : string)
  | UnsupportedType (given : value) (valid : list string)
  | LookupFailure (name : value) (valid : list string)
  | ValueError (why : string)
  | RuntimeError (why : string)
  | External (what : string).

Inductive result (A : Type) :=
  | Ok (a : A)
  | Raise (e : exn).
#[global] Arguments Ok {A} a.
#[global] Arguments Raise {A} e.

#[global] Instance result_ret : MRet result := fun _ a => Ok a.
#[global] Instance result_bind : MBind result := fun _ _ f m =>
  match m with
  | Ok a => f a
  | Raise e => Raise e
  end.

(** [d[k]] on a dict. *)
Definition dict_get (d : gmap string value) (k : string) : result value :=
  match d !! k with
  | Some v => Ok v
  | None => Raise (KeyError k)
  end.

(** [v[k]] with a string subscript, on any value. *)
Definition getitem (v : value) (k : string) : result value :=
  match v with
  | VDict d => dict_get d k
  | VStr _ | VList _ => Raise (TypeError "indices must be integers")
  | _ => Raise (TypeError "object is not subscriptable")
  end.

(** [v[k] = x] with a string subscript: the updated object. *)
Definition setitem (v : value) (k : string) (x : value) : result value :=
  match v with
  | VDict d => Ok (VDict (<[k := x]> d))
  | VList _ => Raise (TypeError "list indices must be integers")
  | _ => Raise (TypeError "object does not support item assignment")
  end.

(** The keyword arguments a value unpacks to under the double-star
    call syntax. *)
Definition kwargs (v : value) : result (gmap string value) :=
  match v with
  | VDict d => Ok d
  | _ => Raise (TypeError "argument after ** must be a mapping")
  end.

Definition hashable (v : value) : bool :=
  match v with
  | VList _ | VDict _ => false
  | _ => true
  end.

(** [v in d.keys()] for a dict [d] with string keys [ks]. *)
Definition in_keys (v : value) (ks : list string) : result bool :=
  match v with
  | VStr s => Ok (bool_decide (s ∈ ks))
  | _ => if hashable v then Ok false else Raise (TypeError "unhashable type")
  end.

(** [sub in s] on strings. *)
Definition str_contains (sub s : string) : bool :=
  match String.index 0 sub s with
  | Some _ => true
  | None => false
  end.

(** Code that mutates an object the caller can see: a state [S] that
    survives an exception. *)
Definition stex (S A : Type) : Type := S → S * result A.

#[global] Instance stex_ret {S} : MRet (stex S) := fun _ a s => (s, Ok a).
#[global] Instance stex_bind {S} : MBind (stex S) := fun _ _ f m s =>
  match m s with
  | (s', Ok a) => f a s'
  | (s', Raise e) => (s', Raise e)
  end.

Definition get {S} : stex S S := fun s => (s, Ok s).
Definition put {S} (s : S) : stex S unit := fun _ => (s, Ok tt).
Definition modify {S} (f : S → S) : stex S unit := fun s => (f s, Ok tt).
Definition lift {S A} (r : result A) : stex S A := fun s => (s, r).
Definition raise {S A} (e : exn) : stex S A := lift (Raise e).

(** A computation that leaves the state as it found it, whether it
    returns or raises. *)
Definition preserves {S A} (m : stex S A) : Prop := ∀ s, (m s).1 = s.

(** [for x in xs: body x]. *)
Fixpoint for_each {S A} (xs : list A) (body : A → stex S unit) : stex S unit :=
  match xs with
  | [] => mret tt
  | x :: xs' => _ ← body x; for_each xs' body
  end.

(** [v == name] for a string [name]. *)
Definition is_str (name : string) (v : value) : bool :=
  match v with
  | VStr s => String.eqb s name
  | _ => false
  end.

(** [name in container] for a string [name]. *)
Definition str_in (name : string) (container : value) : result bool :=
  match container with
  | VList l => Ok (existsb (is_str name) l)
  | VStr s => Ok (str_contains name s)
  | VDict d => Ok (bool_decide (is_Some (d !! name)))
  | _ => Raise (TypeError "argument is not iterable")
  end.

(** First binding of a key in an ordered dict. *)
Fixpoint assoc {A} (k : string) (l : list (string * A)) : option A :=
  match l with
  | [] => None
  | (k', a) :: l' => if String.eqb k k' then Some a else assoc k l'
  end.

(** [d[k] = a] on an ordered dict: a present key keeps its position, a
    new key goes last. *)
Fixpoint assoc_set {A} (k : string) (a : A) (l : list (string * A))
  : list (string * A) :=
  match l with
  | [] => [(k, a)]
  | (k', a') :: l' =>
      if String.eqb k k' then (k', a) :: l' else (k', a') :: assoc_set k a l'
  end.

End Py.
Import Py.

(** ** Registry *)

Module Registry.

(** Modelled from the spec: the [Registry] class of the module
    [registry], which is not among the sources.  The design document
    describes it as a name-to-constructor store: [register(name)]
    records the decorated constructor under [name], overwriting
    silently when the name is taken; a lookup of an absent name raises a
    descriptive error that lists the valid names; the builders read its
    [registry] dict.  The dict is kept in insertion order, which is the
    order an error message lists the names in. *)
Record t (C : Type) := Make { registry : list (string * C) }.
#[global] Arguments Make {C} registry.
#[global] Arguments registry {C} _.

Definition empty {C} : t C := Make [].

Definition keys {C} (r : t C) : list string := (registry r).*1.

Definition register {C} (name : string) (c : C) (r : t C) : t C :=
  Make (assoc_set name c (registry r)).

Definition lookup {C} (r : t C) (name : string) : option C :=
  assoc name (registry r).

(** [r[name]]. *)
Definition getitem {C} (r : t C) (name : value) : result C :=
  match name with
  | VStr s =>
      match lookup r s with
      | Some c => Ok c
      | None => Raise (LookupFailure name (keys r))
      end
  | _ =>
      if hashable name then Raise (LookupFailure name (keys r))
      else Raise (TypeError "unhashable type")
  end.

End Registry.

(** ** The part of PyTorch the two files rely on *)

Module Torch.

(** *** Tensors

    A tensor is its shape, its elements in row-major order and the device
    it lives on.  Floating-point elements are the rationals they denote;
    not-a-number and the infinities appear only where the modelled code can
    produce them itself, in the quotient of [true_divide]. *)
Record tensor (A : Type) := Tensor {
  shape : list nat;
  data : list A;
  device : string
}.
#[global] Arguments Tensor {A} shape data device.
#[global] Arguments shape {A} _.
#[global] Arguments data {A} _.
#[global] Arguments device {A} _.

Inductive pyfloat :=
  | Finite (q : Q)
  | NaN
  | Inf.

Definition ndim {A} (t : tensor A) : nat := length (shape t).

Definition numel (sh : list nat) : nat := foldr Nat.mul 1%nat sh.

(** [t.squeeze()]: every dimension of extent 1 is removed. *)
Definition squeeze {A} (t : tensor A) : tensor A :=
  Tensor (filter (fun d => d ≠ 1%nat) (shape t)) (data t) (device t).

(** [t.to(dev)]. *)
Definition to {A} (dev : string) (t : tensor A) : tensor A :=
  Tensor (shape t) (data t) dev.

(** [len(t)]: the extent of the first dimension. *)
Definition len {A} (t : tensor A) : result nat :=
  match shape t with
  | [] => Raise (TypeError "len() of a 0-d tensor")
  | d :: _ => Ok d
  end.

(** [t.item()]. *)
Definition item {A} (t : tensor A) : result A :=
  match data t with
  | [a] => Ok a
  | _ => Raise (RuntimeError "only one-element tensors convert to a scalar")
  end.

(** Position of the first greatest element, scanning from position [i]
    with [best] at [best_i] the greatest so far. *)
Fixpoint argmax_scan (best_i : nat) (best : Q) (i : nat) (l : list Q) : nat :=
  match l with
  | [] => best_i
  | x :: l' =>
      if Qle_bool x best
      then argmax_scan best_i best (S i) l'
      else argmax_scan i x (S i) l'
  end.

Definition argmax_list (l : list Q) : nat :=
  match l with
  | [] => 0%nat
  | x :: l' => argmax_scan 0 x 1 l'
  end.

(** [torch.argmax(t, dim=1)]: the reduced dimension disappears from the
    shape; element [(i, k)] of the result is the position, along dimension
    1, of the first greatest element among [t[i, :, k]]. *)
Definition argmax_dim1 (t : tensor Q) : result (tensor Z) :=
  match shape t with
  | d0 :: d1 :: rest =>
      if (d1 =? 0)%nat
      then Raise (IndexError "argmax(): reduction dimension of size 0")
      else
        let inner := numel rest in
        Ok (Tensor (d0 :: rest)
              (i ← seq 0 d0;
               k ← seq 0 inner;
               [Z.of_nat (argmax_list
                  ((fun j => nth ((i * d1 + j) * inner + k)%nat (data t) 0%Q)
                     <$> seq 0 d1))])
              (device t))
  | _ => Raise (IndexError "dimension out of range")
  end.

(** Broadcasting of two shapes of equal length. *)
Fixpoint broadcast_dims (s1 s2 : list nat) : option (list nat) :=
  match s1, s2 with
  | [], [] => Some []
  | a :: s1', b :: s2' =>
      d ← (if (a =? b)%nat then Some a
           else if (a =? 1)%nat then Some b
           else if (b =? 1)%nat then Some a
           else None);
      sh ← broadcast_dims s1' s2';
      Some (d :: sh)
  | _, _ => None
  end.

Definition pad_shape (n : nat) (sh : list nat) : list nat :=
  replicate (n - length sh) 1%nat ++ sh.

Definition broadcast_shapes (s1 s2 : list nat) : option (list nat) :=
  let n := length s1 `max` length s2 in
  broadcast_dims (pad_shape n s1) (pad_shape n s2).

(** All the indices of a shape, in row-major order. *)
Fixpoint indices (sh : list nat) : list (list nat) :=
  match sh with
  | [] => [[]]
  | d :: sh' => i ← seq 0 d; (i ::.) <$> indices sh'
  end.

(** Row-major offset of an index of the broadcast shape into an operand
    of shape [sh]: a dimension of extent 1 is read at position 0. *)
Definition offset (sh idx : list nat) : nat :=
  foldl (fun acc '(d, i) => (acc * d + (if (d =? 1)%nat then 0 else i))%nat)
        0%nat (zip sh idx).

(** [a == b], elementwise with broadcasting. *)
Definition eq (a b : tensor Z) : result (tensor bool) :=
  match broadcast_shapes (shape a) (shape b) with
  | None => Raise (RuntimeError "shapes cannot be broadcast")
  | Some sh =>
      let n := length sh in
      Ok (Tensor sh
            ((fun idx =>
                Z.eqb (nth (offset (pad_shape n (shape a)) idx) (data a) 0%Z)
                      (nth (offset (pad_shape n (shape b)) idx) (data b) 0%Z))
               <$> indices sh)
            (device a))
  end.

(** [torch.sum(t)] of a boolean tensor: how many elements are true. *)
Definition sum (t : tensor bool) : nat := length (filter Is_true (data t)).

(** [torch.sum(t) / n] followed by [.item()]: true division of a count by
    a Python integer, as a float. *)
Definition true_divide (count n : nat) : pyfloat :=
  match n with
  | O => if (count =? 0)%nat then NaN else Inf
  | S _ => Finite (Z.of_nat count # Pos.of_nat n)%Q
  end.


(** *** Parameters

    A parameter is an object with an identity; its tensor, its gradient
    and its [requires_grad] flag are read from the store at the moment of
    use. *)
Record pstate := PState {
  p_data : tensor Q;
  p_grad : option (tensor Q);
  p_requires_grad : bool
}.

Definition requires_grad (h : gmap positive pstate) (p : positive) : bool :=
  match h !! p with
  | Some st => p_requires_grad st
  | None => false
  end.

Definition set_flag (b : bool) (st : pstate) : pstate :=
  PState (p_data st) (p_grad st) b.

(** [param.requires_grad = b]. *)
Definition set_requires_grad (b : bool) (p : positive) (h : gmap positive pstate)
  : gmap positive pstate :=
  alter (set_flag b) p h.

(** *** Modules

    The structure of an [nn.Module]: the parameters registered on it, its
    submodules in registration order, and the attribute [in_features]
    where the module has one.  A module object is registered at one place
    of a tree; a parameter may be registered at several. *)
Inductive Module := Mod {
  _parameters : list (string * positive);
  _modules : list (string * Module);
  in_features : option value
}.

(** [m.named_modules(prefix=prefix)]: the module itself, then its
    submodules depth first, each under its dotted path. *)
Fixpoint named_modules_from (prefix : string) (m : Module) : list (string * Module) :=
  (prefix, m) ::
  flat_map (fun '(name, c) =>
      named_modules_from
        (prefix ++ (if String.eqb prefix "" then "" else ".") ++ name) c)
    (_modules m).

Definition named_modules (m : Module) : list (string * Module) :=
  named_modules_from "" m.

(** Each object once, at its first occurrence. *)
Fixpoint unique (seen l : list positive) : list positive :=
  match l with
  | [] => []
  | p :: l' =>
      if bool_decide (p ∈ seen) then unique seen l' else p :: unique (p :: seen) l'
  end.

(** [m.parameters()]: the parameters of the module and of all its
    submodules, each parameter object once. *)
Definition parameters (m : Module) : list positive :=
  unique [] (flat_map (fun '(_, c) => (_parameters c).*2) (named_modules m)).

(** A layer: a module together with what its [forward] computes from the
    gradient mode, the current parameters and the input.  A [forward]
    reads parameters; it does not assign them. *)
Record Layer := {
  layer_module : Module;
  layer_forward : bool → gmap positive pstate → tensor Q → result (tensor Q)
}.

(** A network with named children, such as a torchvision backbone. *)
Record Net := {
  net_parameters : list (string * positive);
  net_children : list (string * Layer);
  net_forward : bool → gmap positive pstate → tensor Q → result (tensor Q)
}.

Definition net_module (n : Net) : Module :=
  Mod (net_parameters n) (prod_map id layer_module <$> net_children n) None.

(** [list(n.children())]. *)
Definition children (n : Net) : list Layer := (net_children n).*2.

(** [nn.Sequential] of the given layers: they are registered under
    their positions and applied one after the other. *)
Definition Sequential (layers : list Layer) : Net :=
  {| net_parameters := [];
     net_children := imap (fun i l => (pretty i, l)) layers;
     net_forward := fun g h x =>
       foldl (fun acc l => acc ≫= layer_forward l g h) (Ok x) layers |}.

(** A classification head: [forward] returns the pair of the logits and
    the embedding. *)
Record Head := {
  head_module : Module;
  head_forward : bool → gmap positive pstate → tensor Q → result (tensor Q * tensor Q)
}.

(** The numerical collaborators: the loss, back-propagation and the
    optimizer of type [O].  Back-propagation writes gradients into the
    parameter store; the optimizer reads and writes the store and its own
    state. *)
Class Kernels (O : Type) := {
  cross_entropy : bool → tensor Q → tensor Z → result (tensor Q);
  backward : tensor Q → stex (gmap positive pstate) unit;
  zero_grad : stex (O * gmap positive pstate) unit;
  step : stex (O * gmap positive pstate) unit
}.

End Torch.

(** ** The builder layer ([builder.py]) *)

Module Builder.

(** A constructor stored in a registry; it is called with keyword
    arguments only. *)
Definition ctor (T : Type) : Type := gmap string value → result T.

Section build_model.
Context {T : Type}.
(** The model registry.  [model.py] registers [ResNetDeepFashion] in it;
    the function below depends on nothing but its contents. *)
Variable MODELS : Registry.t (ctor T).

Definition build_model (cfg : gmap string value) : result T :=
  model_cfg ← dict_get cfg "model_cfg";
  model_type ← dict_get cfg "type";
  known ← in_keys model_type (Registry.keys MODELS);
  if negb known
  then Raise (UnsupportedType model_type (Registry.keys MODELS))
  else
    make ← Registry.getitem MODELS model_type;
    kw ← kwargs model_cfg;
    make kw.
End build_model.

Section build_dataset.
Context {D : Type}.
(** The dataset registry of the module [dataset] and the data-preparation
    function of the module [utils]; neither module is among the sources.
    [prepare_data] takes no argument and returns a pair. *)
Variable DATASETS : Registry.t (ctor D).
Variable prepare_data : result (value * value).

(** What the loop of [build_dataset] reads and writes: the caller's
    [data] (its nested [dataset_cfg] dicts are assigned to in place), the
    locals [splits] and [annotations], unbound until [prepare_data] has
    run, and the dict [ret] under construction. *)
Record frame := Frame {
  data : list (string * value);
  splits : option value;
  annotations : option value;
  ret : list (string * D)
}.

Definition local (var : string) (get_var : frame → option value) : stex frame value :=
  f ← get;
  match get_var f with
  | Some v => mret v
  | None => raise (UnboundLocalError var)
  end.

(** [data[key]['dataset_cfg'][k] = v]: the assignment goes to the dict
    object the caller holds. *)
Definition assign_dataset_cfg (key k : string) (v : value) : stex frame unit :=
  f ← get;
  entry ← lift (match assoc key (data f) with
                | Some e => Ok e
                | None => Raise (KeyError key)
                end);
  dataset_cfg ← lift (getitem entry "dataset_cfg");
  dataset_cfg' ← lift (setitem dataset_cfg k v);
  entry' ← lift (setitem entry "dataset_cfg" dataset_cfg');
  put (Frame (assoc_set key entry' (data f)) (splits f) (annotations f) (ret f)).

(** The body of the [for key in dataset_keys] loop. *)
Definition build_one (key : string) : stex frame unit :=
  f ← get;
  entry ← lift (match assoc key (data f) with
                | Some e => Ok e
                | None => Raise (KeyError key)
                end);
  _ ← lift (getitem entry "dataset_cfg");
  dataset_type ← lift (getitem entry "type");
  known ← lift (in_keys dataset_type (Registry.keys DATASETS));
  _ ← (if negb known
       then raise (UnsupportedType dataset_type (Registry.keys DATASETS))
       else mret tt);
  _ ← (if String.eqb key "train_dataset"
       then
         '(s, a) ← lift prepare_data;
         modify (fun f => Frame (data f) (Some s) (Some a) (ret f))
       else mret tt);
  s ← local "splits" splits;
  _ ← assign_dataset_cfg key "split_info" s;
  a ← local "annotations" annotations;
  _ ← assign_dataset_cfg key "garment_annotations" a;
  make ← lift (Registry.getitem DATASETS dataset_type);
  f ← get;
  kw ← lift (match assoc key (data f) with
             | Some e => getitem e "dataset_cfg" ≫= kwargs
             | None => Raise (KeyError key)
             end);
  d ← lift (make kw);
  modify (fun f => Frame (data f) (splits f) (annotations f) (assoc_set key d (ret f))).

Definition dataset_keys (data : list (string * value)) : list string :=
  filter (fun x => Is_true (str_contains "dataset" x)) data.*1.

(** The caller's [data] after the call, and what the call returns. *)
Definition build_dataset (data : list (string * value))
  : list (string * value) * result (list (string * D)) :=
  let '(Frame data' _ _ ret', r) :=
    for_each (dataset_keys data) build_one (Frame data None None []) in
  (data', match r with
          | Ok _ => Ok ret'
          | Raise e => Raise e
          end).

(** What a successful call has done for a dataset key: the entry of the
    key in the caller's [data] names a registered type, its
    configuration was extended with the two prepared structures, the
    registered constructor was called on the extended configuration, and
    [ret'] holds what it returned; the caller's dict [data'] holds the
    extended configuration. *)
Definition built (data data' : list (string * value)) (ret' : list (string * D))
    (key : string) : Prop :=
  ∃ entry dataset_cfg dataset_type make s a d,
    assoc key data = Some (VDict entry) ∧
    entry !! "dataset_cfg" = Some (VDict dataset_cfg) ∧
    entry !! "type" = Some (VStr dataset_type) ∧
    Registry.lookup DATASETS dataset_type = Some make ∧
    prepare_data = Ok (s, a) ∧
    make (<["garment_annotations" := a]> (<["split_info" := s]> dataset_cfg)) = Ok d ∧
    assoc key ret' = Some d ∧
    assoc key data'
    = Some (VDict (<["dataset_cfg" :=
                       VDict (<["garment_annotations" := a]>
                                (<["split_info" := s]> dataset_cfg))]> entry)).

(** The locals [splits] and [annotations] are unbound together, or hold
    what [prepare_data] returned. *)
Definition prepared (f : frame) : Prop :=
  (splits f = None ∧ annotations f = None) ∨
  (∃ s a, prepare_data = Ok (s, a) ∧ splits f = Some s ∧ annotations f = Some a).
End build_dataset.

Section build_optimizer.
Context {O : Type}.
(** The dict of the optimizer classes of [torch.optim], by class name. *)
Variable OPTIMIZERS : list (string * ctor O).

(** The loop over [model.named_modules()]: the local list
    [trainable_params] and the dict [optimizer_cfg], which is the object
    stored in the caller's [cfg] under ['optimizer_cfg'].  [list.extend]
    returns [None], and that is what the assignment stores. *)
Definition select_module (params : value) (name : string) (module : Torch.Module)
  : stex (list positive * value) unit :=
  selected ← lift (str_in name params);
  if selected : bool
  then
    '(trainable_params, optimizer_cfg) ← get;
    let trainable_params := (trainable_params ++ Torch.parameters module)%list in
    _ ← put (trainable_params, optimizer_cfg);
    let extend_result := VNone in
    optimizer_cfg ← lift (setitem optimizer_cfg "params" extend_result);
    put (trainable_params, optimizer_cfg)
  else mret tt.

(** Parameter selection: the final [trainable_params] and [optimizer_cfg],
    and the exception if one was raised on the way. *)
Definition collect_params (h : gmap positive Torch.pstate) (params : value)
    (model : Torch.Module)
  : stex (list positive * value) unit :=
  match params with
  | VNone =>
      '(_, optimizer_cfg) ← get;
      put (filter (fun x => Is_true (Torch.requires_grad h x)) (Torch.parameters model),
           optimizer_cfg)
  | _ =>
      for_each (Torch.named_modules model)
               (fun '(name, module) => select_module params name module)
  end.

(** The caller's [cfg] after the call, and what the call returns. *)
Definition build_optimizer (h : gmap positive Torch.pstate)
    (cfg : gmap string value) (model : Torch.Module)
  : gmap string value * result O :=
  match dict_get cfg "type", dict_get cfg "optimizer_cfg", dict_get cfg "params" with
  | Raise e, _, _ => (cfg, Raise e)
  | _, Raise e, _ => (cfg, Raise e)
  | _, _, Raise e => (cfg, Raise e)
  | Ok optimizer_type, Ok optimizer_cfg, Ok params =>
      let '((_, optimizer_cfg), collected) :=
        collect_params h params model ([], optimizer_cfg) in
      (<["optimizer_cfg" := optimizer_cfg]> cfg,
       _ ← collected;
       _ ← getitem optimizer_cfg "params";
       known ← in_keys optimizer_type OPTIMIZERS.*1;
       if negb known
       then Raise (UnsupportedType optimizer_type OPTIMIZERS.*1)
       else
         make ← (match optimizer_type with
                 | VStr s =>
                     match assoc s OPTIMIZERS with
                     | Some c => Ok c
                     | None => Raise (KeyError s)
                     end
                 | _ => Raise (KeyError "")
                 end);
         kw ← kwargs optimizer_cfg;
         make kw)
  end.
End build_optimizer.

End Builder.

(** ** The model ([model.py]) *)

Module Model.
Import Torch.

Section ResNetDeepFashion.
Context {O : Type} `{!Kernels O}.
(** The registries of backbones and of classification heads.  The
    backbone factories take no argument and return a pretrained network;
    a head constructor is called with the head configuration as keyword
    arguments. *)
Variable BACKBONES : Registry.t (result Net).
Variable CLS_HEADS : Registry.t (Builder.ctor Head).

(** The attributes of a [ResNetDeepFashion] object. *)
Record ResNetDeepFashion := Self {
  cls_head_type : value;
  backbone : Net;
  cls_head : option Head;
  optimizer : option O;
  cls_head_config : value
}.

Definition _prepare_model : stex ResNetDeepFashion unit :=
  self ← get;
  final ← lift (match last (children (backbone self)) with
                | Some l => Ok l
                | None => Raise (IndexError "list index out of range")
                end);
  num_features ← lift (match in_features (layer_module final) with
                       | Some w => Ok w
                       | None => Raise (AttributeError "in_features")
                       end);
  _ ← put (Self (cls_head_type self)
                (Sequential (removelast (children (backbone self))))
                (cls_head self) (optimizer self) (cls_head_config self));
  self ← get;
  config ← lift (setitem (cls_head_config self) "fan_in" num_features);
  _ ← put (Self (cls_head_type self) (backbone self) (cls_head self)
                (optimizer self) config);
  self ← get;
  make ← lift (Registry.getitem CLS_HEADS (cls_head_type self));
  kw ← lift (kwargs (cls_head_config self));
  head ← lift (make kw);
  put (Self (cls_head_type self) (backbone self) (Some head) (optimizer self)
            (cls_head_config self)).

Definition __init__ (kwargs : gmap string value) : result ResNetDeepFashion :=
  cls_head_type ← dict_get kwargs "cls_head_type";
  name ← dict_get kwargs "backbone";
  factory ← Registry.getitem BACKBONES name;
  backbone ← factory;
  cls_head_config ← dict_get kwargs "cls_head_config";
  match _prepare_model (Self cls_head_type backbone None None cls_head_config) with
  | (self, Ok _) => Ok self
  | (_, Raise e) => Raise e
  end.

(** The model as an [nn.Module]: its submodules in the order in which the
    attributes were first assigned a module. *)
Definition module_of (self : ResNetDeepFashion) : Module :=
  Mod [] (("backbone", net_module (backbone self)) ::
          match cls_head self with
          | Some head => [("cls_head", head_module head)]
          | None => []
          end) None.

(** What a method of the model can read and write: the object itself, the
    parameter store, and the global gradient mode. *)
Record world := World {
  self : ResNetDeepFashion;
  heap : gmap positive pstate;
  grad_enabled : bool
}.

Definition set_backbone_requires_grad (b : bool) : stex world unit :=
  modify (fun w =>
    World (self w)
          (foldl (fun h param => set_requires_grad b param h) (heap w)
                 (parameters (net_module (backbone (self w)))))
          (grad_enabled w)).

Definition freeze_weights : stex world unit := set_backbone_requires_grad false.

Definition unfreeze_weights : stex world unit := set_backbone_requires_grad true.

Definition configure_optimizer (optimizer : O) : stex world unit :=
  modify (fun w =>
    World (Self (cls_head_type (self w)) (backbone (self w)) (cls_head (self w))
                (Some optimizer) (cls_head_config (self w)))
          (heap w) (grad_enabled w)).

(** [with torch.no_grad(): body], also the decorator: the gradient mode is
    switched off for the body and restored when the body is left, by
    return or by exception. *)
Definition no_grad {A} (body : stex world A) : stex world A := fun w =>
  let '(w', r) := body (World (self w) (heap w) false) in
  (World (self w') (heap w') (grad_enabled w), r).

(** A collaborator that reads the gradient mode and the parameters. *)
Definition run {A} (f : bool → gmap positive pstate → result A) : stex world A :=
  fun w => (w, f (grad_enabled w) (heap w)).

Definition forward (x : tensor Q) (targets : option (tensor Z))
  : stex world (tensor Q * tensor Q * option (tensor Q)) :=
  w ← get;
  out ← no_grad (run (fun g h => net_forward (backbone (self w)) g h x));
  head ← lift (match cls_head (self w) with
               | Some head => Ok head
               | None => Raise (TypeError "'NoneType' object is not callable")
               end);
  '(preds, embeddings) ← run (fun g h => head_forward head g h out);
  match targets with
  | Some targets =>
      loss ← run (fun g _ => cross_entropy g preds targets);
      mret (preds, embeddings, Some loss)
  | None => mret (preds, embeddings, None)
  end.

(** A method of [self.optimizer]. *)
Definition optimizer_call (method : string) (f : stex (O * gmap positive pstate) unit)
  : stex world unit := fun w =>
  match optimizer (self w) with
  | None => (w, Raise (AttributeError method))
  | Some o =>
      let '((o', h'), r) := f (o, heap w) in
      (World (Self (cls_head_type (self w)) (backbone (self w)) (cls_head (self w))
                   (Some o') (cls_head_config (self w)))
             h' (grad_enabled w), r)
  end.

(** [loss.backward()]. *)
Definition loss_backward (loss : option (tensor Q)) : stex world unit := fun w =>
  match loss with
  | None => (w, Raise (AttributeError "backward"))
  | Some l =>
      let '(h', r) := backward l (heap w) in
      (World (self w) h' (grad_enabled w), r)
  end.

(** [if targets.ndim > 1: targets = targets.squeeze()]. *)
Definition squeeze_targets (targets : tensor Z) : tensor Z :=
  if 1 <? ndim targets then squeeze targets else targets.

(** [torch.sum(predictions == targets) / len(targets)], then [.item()]. *)
Definition match_rate (predictions targets : tensor Z) : result pyfloat :=
  hits ← eq predictions targets;
  n ← len targets;
  Ok (true_divide (sum hits) n).

Definition training_step (x : tensor Q) (targets : tensor Z)
  : stex world (gmap string pyfloat) :=
  let targets := squeeze_targets targets in
  '(logits, _, loss) ← forward x (Some targets);
  let logits_cpu := to "cpu" logits in
  let targets_cpu := to "cpu" targets in
  predictions ← lift (argmax_dim1 logits_cpu);
  train_accuracy ← lift (match_rate predictions targets_cpu);
  _ ← optimizer_call "zero_grad" zero_grad;
  _ ← loss_backward loss;
  _ ← optimizer_call "step" step;
  train_loss ← lift (match loss with
                     | Some l => item l
                     | None => Raise (AttributeError "item")
                     end);
  mret ({[ "train_acc" := train_accuracy; "train_loss" := Finite train_loss ]}
        : gmap string pyfloat).

Definition validation_step (x_val : tensor Q) (targets_val : tensor Z)
  : stex world (gmap string pyfloat) :=
  no_grad (
    let targets_val := squeeze_targets targets_val in
    '(logits, _, val_loss) ← forward x_val (Some targets_val);
    val_loss ← lift (match val_loss with
                     | Some l => item (to "cpu" l)
                     | None => Raise (AttributeError "to")
                     end);
    let logits_cpu := to "cpu" logits in
    let targets_cpu := to "cpu" targets_val in
    predictions ← lift (argmax_dim1 logits_cpu);
    val_accuracy ← lift (match_rate predictions targets_cpu);
    mret ({[ "val_acc" := val_accuracy; "val_loss" := Finite val_loss ]}
          : gmap string pyfloat)).

(** [MODELS.register('ResNetDeepFashion')] on the class. *)
Definition MODELS : Registry.t (Builder.ctor ResNetDeepFashion) :=
  Registry.register "ResNetDeepFashion" __init__ Registry.empty.

End ResNetDeepFashion.

End Model.

(** ** A small instance

    A two-layer backbone, a head shaped like [ClassificationHead] and
    simple stand-ins for the numerical collaborators, on which the
    functions above can be run. *)

Module Examples.
Import Torch.

Definition features : Layer :=
  {| layer_module := Mod [("weight", 1%positive)] [] None;
     layer_forward := fun _ _ x => Ok x |}.

Definition fc : Layer :=
  {| layer_module := Mod [("weight", 2%positive); ("bias", 3%positive)] []
                         (Some (VInt 3));
     layer_forward := fun _ _ x => Ok x |}.

Definition tiny_net : Net :=
  {| net_parameters := [];
     net_children := [("features", features); ("fc", fc)];
     net_forward := fun _ _ x => Ok x |}.

Definition BACKBONES : Registry.t (result Net) :=
  Registry.register "tiny" (Ok tiny_net) Registry.empty.

(** [nn.Linear(i, o)] whose weight is the identity matrix, cut or padded
    with zeros to [o] rows and [i] columns, and whose bias is zero: the
    last dimension of the input must have extent [i], and every row of
    [i] entries becomes its first [o] entries, padded with zeros. *)
Definition linear_forward (i o : nat) (x : tensor Q) : result (tensor Q) :=
  match last (shape x) with
  | Some d =>
      if (d =? i)%nat
      then Ok (Tensor (removelast (shape x) ++ [o])
                 (row ← reshape (replicate (numel (removelast (shape x))) i) (data x);
                  take o (row ++ replicate (o - i) 0%Q))
                 (device x))
      else Raise (RuntimeError "mat1 and mat2 shapes cannot be multiplied")
  | None => Raise (RuntimeError "both arguments to matmul need to be at least 1D")
  end.

(** A head with the structure and the [forward] of [ClassificationHead]:
    one linear layer [cls_head] from [fan_in] to [n_classes] features,
    with the weights of [linear_forward]. *)
Definition simple : Builder.ctor Head := fun kwargs =>
  fan_in ← dict_get kwargs "fan_in";
  n_classes ← dict_get kwargs "n_classes";
  match fan_in, n_classes with
  | VInt i, VInt o =>
      if ((0 <=? i) && (0 <=? o))%Z
      then
        Ok {| head_module :=
                Mod [] [("cls_head",
                         Mod [("weight", 4%positive); ("bias", 5%positive)] []
                             (Some fan_in))] None;
              head_forward := fun _ _ x =>
                let x := if 2 <? ndim x then squeeze x else x in
                out_cls ← linear_forward (Z.to_nat i) (Z.to_nat o) x;
                Ok (out_cls, x) |}
      else Raise (RuntimeError "Trying to create tensor with negative dimension")
  | _, _ => Raise (TypeError "in_features and out_features must be integers")
  end.

Definition CLS_HEADS : Registry.t (Builder.ctor Head) :=
  Registry.register "simple" simple Registry.empty.

(** The loss reports the rank of the targets it is given; back-propagation
    stores the loss as the gradient of every parameter that requires one;
    the optimizer counts its steps and moves every parameter that has a
    gradient. *)
#[global] Instance kernels : Kernels nat :=
  {| cross_entropy := fun _ preds targets =>
       Ok (Tensor [] [inject_Z (Z.of_nat (ndim targets))] (device preds));
     backward := fun loss h =>
       ((fun st => if p_requires_grad st
                   then PState (p_data st) (Some loss) true
                   else st) <$> h, Ok tt);
     zero_grad := fun '(o, h) =>
       ((o, (fun st => PState (p_data st) None (p_requires_grad st)) <$> h), Ok tt);
     step := fun '(o, h) =>
       ((S o, (fun st => match p_grad st with
                         | Some g => PState g (p_grad st) (p_requires_grad st)
                         | None => st
                         end) <$> h), Ok tt) |}.

Definition model_cfg : gmap string value :=
  {[ "backbone" := VStr "tiny";
     "cls_head_type" := VStr "simple";
     "cls_head_config" := VDict {[ "n_classes" := VInt 3 ]} ]}.

Definition param (q : Q) : pstate := PState (Tensor [1] [q] "cpu") None true.

Definition heap0 : gmap positive pstate :=
  {[ 1%positive := param 1; 2%positive := param 2; 3%positive := param 3;
     4%positive := param 4; 5%positive := param 5 ]}.

(** The model the constructor returns on [model_cfg]. *)
Definition model0 : Model.ResNetDeepFashion (O := nat) :=
  match Model.__init__ BACKBONES CLS_HEADS model_cfg with
  | Ok self => self
  | Raise _ => Model.Self VNone tiny_net None None VNone
  end.

Definition world0 : Model.world (O := nat) :=
  Model.World (Model.Self (Model.cls_head_type model0) (Model.backbone model0)
                 (Model.cls_head model0) (Some 0) (Model.cls_head_config model0))
              heap0 true.

(** A batch of two samples with three logits each, and its labels. *)
Definition x0 : tensor Q := Tensor [2; 3] [1; 5; 2; 7; 0; 3]%Q "cuda".
Definition labels0 : tensor Z := Tensor [2; 1] [1; 2]%Z "cuda".


(** A dataset registry whose one constructor returns the keyword arguments
    it was called with, and a prepared pair of structures. *)
Definition DATASETS : Registry.t (Builder.ctor (gmap string value)) :=
  Registry.register "Recorded" (fun kw => Ok kw) Registry.empty.

Definition prepared_data : result (value * value) := Ok (VObj 1, VObj 2).

Definition data0 : list (string * value) :=
  [ ("train_dataset", VDict {[ "type" := VStr "Recorded";
                               "dataset_cfg" := VDict {[ "root" := VStr "train" ]} ]});
    ("val_dataset", VDict {[ "type" := VStr "Recorded";
                             "dataset_cfg" := VDict {[ "root" := VStr "val" ]} ]});
    ("batch_size", VInt 32) ].

(** The same entries with the validation split first. *)
Definition data_val_first : list (string * value) :=
  [ ("val_dataset", VDict {[ "type" := VStr "Recorded";
                             "dataset_cfg" := VDict {[ "root" := VStr "val" ]} ]});
    ("train_dataset", VDict {[ "type" := VStr "Recorded";
                               "dataset_cfg" := VDict {[ "root" := VStr "train" ]} ]}) ].

(** The store in which the head has been frozen by hand. *)
Definition heap_head_frozen : gmap positive pstate :=
  set_requires_grad false 5 (set_requires_grad false 4 heap0).

Definition world_head_frozen : Model.world (O := nat) :=
  Model.World (Model.self world0) heap_head_frozen true.

(** Optimizer configurations: the example of the docstring of
    [build_optimizer], which asks for all parameters; the parameters of
    the head; all parameters, with an entry ['params'] already present;
    and the example of the design document, with an unknown type. *)
Definition cfg_all : gmap string value :=
  {[ "type" := VStr "Adam"; "params" := VNone;
     "optimizer_cfg" := VDict {[ "lr" := VFloat (1 # 1000) ]} ]}.

Definition cfg_head : gmap string value :=
  {[ "type" := VStr "Adam"; "params" := VList [VStr "cls_head"];
     "optimizer_cfg" := VDict {[ "lr" := VFloat (1 # 1000) ]} ]}.

Definition cfg_preset : gmap string value :=
  {[ "type" := VStr "Adam"; "params" := VNone;
     "optimizer_cfg" := VDict {[ "params" := VList [] ]} ]}.

Definition cfg_nonexistent : gmap string value :=
  {[ "type" := VStr "Nonexistent"; "params" := VNone; "optimizer_cfg" := VDict ∅ ]}.

(** An optimizer dict whose constructors return the keyword arguments they
    were called with. *)
Definition OPTIMIZERS : list (string * Builder.ctor (gmap string value)) :=
  [ ("Adam", fun kw => Ok kw); ("SGD", fun kw => Ok kw) ].

End Examples.

(** ** The classification heads ([model.py]) *)

Module Heads.
Import Torch.

(** The truth value of [v], as [if v:] takes it. *)
Definition truthy (v : value) : bool :=
  match v with
  | VNone => false
  | VBool b => b
  | VInt z => negb (z =? 0)%Z
  | VFloat q => negb (Qeq_bool q 0)
  | VStr s => negb (String.eqb s "")
  | VList l => negb (length l =? 0)
  | VDict d => negb (size d =? 0)
  | VObj _ => true
  end.

(** [ClassificationHead], registered as 'simple'. *)
Module ClassificationHead.
Section methods.
(** [nn.Linear(in_features=i, out_features=o)], as a function of [i] and
    [o]. *)
Variable Linear : value → value → result Layer.

Record t := Self {
  embedding_sz : option value;
  cls_head : Layer
}.

Definition __init__ (kwargs : gmap string value) : result t :=
  let embedding_sz :=
    match kwargs !! "embedding_sz" with
    | Some v => if truthy v then Some v else None
    | None => None
    end in
  fan_in ← dict_get kwargs "fan_in";
  n_classes ← dict_get kwargs "n_classes";
  cls_head ← Linear fan_in n_classes;
  Ok (Self embedding_sz cls_head).

Definition forward (self : t) (g : bool) (h : gmap positive pstate) (x : tensor Q)
  : result (tensor Q * tensor Q) :=
  let x := if 2 <? ndim x then squeeze x else x in
  let embedding := x in
  out_cls ← layer_forward (cls_head self) g h embedding;
  Ok (out_cls, embedding).

(** The object as a head of the model. *)
Definition head (self : t) : Head :=
  {| head_module := Mod [] [("cls_head", layer_module (cls_head self))] None;
     head_forward := forward self |}.

(** Calling the class. *)
Definition new : Builder.ctor Head := fun kwargs =>
  self ← __init__ kwargs; Ok (head self).
End methods.
End ClassificationHead.

(** [LinearClassificationHead], registered as 'linear'. *)
Module LinearClassificationHead.
Section methods.
Variable Linear : value → value → result Layer.
(** [nn.ReLU()]. *)
Variable ReLU : Layer.

Record t := Self {
  embedding : Layer;
  act : Layer;
  cls_head : Layer
}.

Definition __init__ (kwargs : gmap string value) : result t :=
  fan_in ← dict_get kwargs "fan_in";
  embedding_sz ← dict_get kwargs "embedding_sz";
  embedding ← Linear fan_in embedding_sz;
  let act := ReLU in
  embedding_sz ← dict_get kwargs "embedding_sz";
  n_classes ← dict_get kwargs "n_classes";
  cls_head ← Linear embedding_sz n_classes;
  Ok (Self embedding act cls_head).

Definition forward (self : t) (g : bool) (h : gmap positive pstate) (x : tensor Q)
  : result (tensor Q * tensor Q) :=
  embedding ← layer_forward (embedding self) g h (squeeze x);
  out_cls ← layer_forward (cls_head self) g h embedding;
  Ok (out_cls, embedding).

Definition head (self : t) : Head :=
  {| head_module := Mod [] [("embedding", layer_module (embedding self));
                            ("act", layer_module (act self));
                            ("cls_head", layer_module (cls_head self))] None;
     head_forward := forward self |}.

Definition new : Builder.ctor Head := fun kwargs =>
  self ← __init__ kwargs; Ok (head self).
End methods.
End LinearClassificationHead.

(** [CombinedGlobalDescriptorClassHead], registered as 'cgd_head'. *)
Module CombinedGlobalDescriptorClassHead.
Section methods.
Variable Linear : value → value → result Layer.
(** [nn.BatchNorm2d(num_features=n)]. *)
Variable BatchNorm2d : value → result Layer.
(** The constructor the module [pooling], which is not among the sources,
    registers as 'config_descriptor', as a function of [fan_in],
    [gd_config] and [feat_dim]; the [forward] of the object returns a
    pair. *)
Variable config_descriptor : value → value → value → result Head.

Record t := Self {
  gd : Head;
  bn : Layer;
  cls : Layer
}.

Definition __init__ (kwargs : gmap string value) : result t :=
  fan_in ← dict_get kwargs "fan_in";
  gd_config ← dict_get kwargs "gd_config";
  feat_dim ← dict_get kwargs "feat_dim";
  gd ← config_descriptor fan_in gd_config feat_dim;
  fan_in ← dict_get kwargs "fan_in";
  bn ← BatchNorm2d fan_in;
  fan_in ← dict_get kwargs "fan_in";
  n_classes ← dict_get kwargs "n_classes";
  cls ← Linear fan_in n_classes;
  Ok (Self gd bn cls).

Definition forward (self : t) (g : bool) (h : gmap positive pstate) (x : tensor Q)
  : result (tensor Q * tensor Q) :=
  '(gd, first_gd) ← head_forward (gd self) g h x;
  out ← layer_forward (bn self) g h first_gd;
  out ← layer_forward (cls self) g h out;
  Ok (out, gd).

Definition head (self : t) : Head :=
  {| head_module := Mod [] [("gd", head_module (gd self));
                            ("bn", layer_module (bn self));
                            ("cls", layer_module (cls self))] None;
     head_forward := forward self |}.

Definition new : Builder.ctor Head := fun kwargs =>
  self ← __init__ kwargs; Ok (head self).
End methods.
End CombinedGlobalDescriptorClassHead.

(** The registry [CLS_HEADS] as [model.py] fills it, in the order of the
    three decorators. *)
Definition CLS_HEADS (Linear : value → value → result Layer) (ReLU : Layer)
    (BatchNorm2d : value → result Layer)
    (config_descriptor : value → value → value → result Head)
  : Registry.t (Builder.ctor Head) :=
  Registry.register "cgd_head"
    (CombinedGlobalDescriptorClassHead.new Linear BatchNorm2d config_descriptor)
    (Registry.register "linear" (LinearClassificationHead.new Linear ReLU)
       (Registry.register "simple" (ClassificationHead.new Linear) Registry.empty)).

End Heads.

(** ** What the steps compute

    The value of [forward] and of [validation_step] as functions of the
    model object, the parameter store and the gradient mode, and the part
    of the state a step of the model has no business with. *)

Module Steps.
Import Torch Model.

Section steps.
Context {O : Type} `{!Kernels O}.

(** What [forward] returns when the head and the loss run in gradient
    mode [g]. *)
Definition forward_value (self : ResNetDeepFashion (O := O))
    (h : gmap positive pstate) (g : bool) (x : tensor Q) (targets : option (tensor Z))
  : result (tensor Q * tensor Q * option (tensor Q)) :=
  out ← net_forward (backbone self) false h x;
  head ← match cls_head self with
         | Some head => Ok head
         | None => Raise (TypeError "'NoneType' object is not callable")
         end;
  '(preds, embeddings) ← head_forward head g h out;
  match targets with
  | Some targets =>
      loss ← cross_entropy g preds targets;
      Ok (preds, embeddings, Some loss)
  | None => Ok (preds, embeddings, None)
  end.

(** What the two steps compute from the result of [forward] before any
    optimizer is called: the predictions and their match rate. *)
Definition accuracy_value (logits : tensor Q) (targets : tensor Z) : result pyfloat :=
  predictions ← argmax_dim1 (to "cpu" logits);
  match_rate predictions (to "cpu" targets).

(** What [validation_step] returns. *)
Definition validation_value (self : ResNetDeepFashion (O := O))
    (h : gmap positive pstate) (x_val : tensor Q) (targets_val : tensor Z)
  : result (gmap string pyfloat) :=
  '(logits, _, val_loss) ← forward_value self h false x_val
                             (Some (squeeze_targets targets_val));
  val_loss ← match val_loss with
             | Some l => item (to "cpu" l)
             | None => Raise (AttributeError "to")
             end;
  val_accuracy ← accuracy_value logits (squeeze_targets targets_val);
  Ok {[ "val_acc" := val_accuracy; "val_loss" := Finite val_loss ]}.

(** What a step has no business with: the submodules and the head
    configuration of the model, and the gradient mode. *)
Definition same_structure (w w' : world (O := O)) : Prop :=
  cls_head_type (self w') = cls_head_type (self w) ∧
  backbone (self w') = backbone (self w) ∧
  cls_head (self w') = cls_head (self w) ∧
  cls_head_config (self w') = cls_head_config (self w) ∧
  grad_enabled w' = grad_enabled w.

End steps.

(** A relation kept by every step of a computation, whether it returns or
    raises. *)
Definition maintains {S A} (R : S → S → Prop) (m : stex S A) : Prop :=
  ∀ s, R s (m s).1.

End Steps.

(** ** Further instances *)

Module Instances.
Import Torch.

(** A linear layer that keeps the rank of its input: the identity. *)
Definition linear_layer (i : value) : Layer :=
  {| layer_module := Mod [("weight", 6%positive); ("bias", 7%positive)] [] (Some i);
     layer_forward := fun _ _ x => Ok x |}.

Definition Linear : value → value → result Layer := fun i _ => Ok (linear_layer i).

Definition ReLU : Layer :=
  {| layer_module := Mod [] [] None; layer_forward := fun _ _ x => Ok x |}.

Definition BatchNorm2d : value → result Layer := fun _ =>
  Ok {| layer_module := Mod [("weight", 8%positive); ("bias", 9%positive)] [] None;
        layer_forward := fun _ _ x => Ok x |}.

Definition config_descriptor : value → value → value → result Head := fun _ _ _ =>
  Ok {| head_module := Mod [] [] None; head_forward := fun _ _ x => Ok (x, x) |}.

Definition CLS_HEADS : Registry.t (Builder.ctor Head) :=
  Heads.CLS_HEADS Linear ReLU BatchNorm2d config_descriptor.

(** The model with no optimizer attached, as the constructor returns it. *)
Definition world_fresh : Model.world (O := nat) :=
  Model.World Examples.model0 Examples.heap0 true.

(** A single sample whose label is given as a column. *)
Definition x_single : tensor Q := Tensor [1; 3] [1; 5; 2]%Q "cuda".
Definition labels_single : tensor Z := Tensor [1; 1] [1]%Z "cuda".

(** A single sample as a backbone hands it on, with trailing dimensions
    of extent 1. *)
Definition features_single : tensor Q := Tensor [1; 3; 1; 1] [1; 5; 2]%Q "cuda".
Definition label_single : tensor Z := Tensor [1] [1]%Z "cuda".


(** A model configuration for the registry of [model.py], with a 'fan_in'
    of the caller's own. *)
Definition cfg_simple : gmap string value :=
  {[ "backbone" := VStr "tiny";
     "cls_head_type" := VStr "simple";
     "cls_head_config" := VDict {[ "n_classes" := VInt 10; "fan_in" := VInt 64 ]} ]}.

Definition cfg_linear : gmap string value :=
  {[ "backbone" := VStr "tiny";
     "cls_head_type" := VStr "linear";
     "cls_head_config" := VDict {[ "n_classes" := VInt 10; "embedding_sz" := VInt 8 ]} ]}.

(** The models the constructor returns on the two configurations, with an
    optimizer attached. *)
Definition attach (model : result (Model.ResNetDeepFashion (O := nat)))
  : Model.world (O := nat) :=
  match model with
  | Ok self =>
      Model.World (Model.Self (Model.cls_head_type self) (Model.backbone self)
                     (Model.cls_head self) (Some 0) (Model.cls_head_config self))
                  Examples.heap0 true
  | Raise _ => Examples.world0
  end.

Definition world_simple : Model.world (O := nat) :=
  attach (Model.__init__ Examples.BACKBONES CLS_HEADS cfg_simple).

Definition world_linear : Model.world (O := nat) :=
  attach (Model.__init__ Examples.BACKBONES CLS_HEADS cfg_linear).

(** A backbone without children, and one whose last child is a container
    without the attribute [in_features]. *)
Definition BACKBONES : Registry.t (result Net) :=
  Registry.register "container_last"
    (Ok {| net_parameters := [];
           net_children := [("features", Examples.features);
                            ("heads", Examples.features)];
           net_forward := fun _ _ x => Ok x |})
    (Registry.register "childless"
       (Ok {| net_parameters := []; net_children := [];
              net_forward := fun _ _ x => Ok x |})
       Examples.BACKBONES).

(** A store in which the backbone parameter is frozen from the start. *)
Definition heap_backbone_frozen : gmap positive pstate :=
  set_requires_grad false 1 Examples.heap0.

(** A configuration with an unregistered dataset type; optimizer
    configurations with the parameters given as a string, and with a
    backbone child selected by the name it has in the registered
    network. *)
Definition data_unregistered : list (string * value) :=
  [ ("train_dataset", VDict {[ "type" := VStr "Missing";
                               "dataset_cfg" := VDict ∅ ]}) ].

Definition cfg_string : gmap string value :=
  {[ "type" := VStr "Adam"; "params" := VStr "cls_head";
     "optimizer_cfg" := VDict {[ "lr" := VFloat (1 # 1000) ]} ]}.

Definition cfg_no_match : gmap string value :=
  {[ "type" := VStr "Adam"; "params" := VList [VStr "backbone.features"];
     "optimizer_cfg" := VDict {[ "lr" := VFloat (1 # 1000) ]} ]}.

End Instances.

(** * Properties *)

(** ** Ordered dicts, registries and the state-and-exception monad *)

Module PyFacts.
#[local] Open Scope list_scope.

Lemma assoc_is_Some {A} (k : string) (l : list (string * A)) :
  is_Some (assoc k l) ↔ k ∈ l.*1.
Proof.
  induction l as [|[k' a] l IH]; simpl.
  - split; [intros [? [=]] | intros H; inversion H].
  - destruct (String.eqb_spec k k') as [->|Hne].
    + split; [intros _; left | eauto].
    + rewrite IH. split; [by right | ].
      intros H. inversion H; subst; [done | assumption].
Qed.

Lemma assoc_assoc_set {A} (k k' : string) (a : A) (l : list (string * A)) :
  assoc k (assoc_set k' a l) = if String.eqb k k' then Some a else assoc k l.
Proof.
  induction l as [|[k0 a0] l IH]; simpl.
  - done.
  - destruct (String.eqb_spec k' k0) as [->|Hne]; simpl.
    + by destruct (String.eqb k k0).
    + rewrite IH. destruct (String.eqb_spec k k0) as [->|]; [|done].
      by destruct (String.eqb_spec k0 k') as [->|].
Qed.

Lemma assoc_set_assoc_set {A} (k : string) (a b : A) (l : list (string * A)) :
  assoc_set k a (assoc_set k b l) = assoc_set k a l.
Proof.
  induction l as [|[k0 a0] l IH]; simpl.
  - by rewrite String.eqb_refl.
  - destruct (String.eqb_spec k k0) as [->|Hne]; simpl.
    + by rewrite String.eqb_refl.
    + rewrite IH. by destruct (String.eqb_spec k k0).
Qed.

Lemma registry_keys_lookup {C} (r : Registry.t C) (name : string) :
  name ∈ Registry.keys r ↔ is_Some (Registry.lookup r name).
Proof. symmetry. apply assoc_is_Some. Qed.

Lemma getitem_Ok (v : value) (k : string) (x : value) :
  getitem v k = Ok x → ∃ d, v = VDict d ∧ d !! k = Some x.
Proof.
  destruct v; simpl; try done. unfold dict_get.
  destruct (d !! k) eqn:E; intros [=]; subst; eauto.
Qed.

(** Inversion of a computation that returned. *)
Lemma stex_bind_Ok {S A B} (m : stex S A) (k : A → stex S B) s s' b :
  (m ≫= k) s = (s', Ok b) →
  ∃ a s1, m s = (s1, Ok a) ∧ k a s1 = (s', Ok b).
Proof.
  unfold mbind, stex_bind. destruct (m s) as [s1 [a|e]]; [eauto | intros [=]].
Qed.

Lemma lift_Ok {S A} (r : result A) (s s' : S) a :
  lift r s = (s', Ok a) → s' = s ∧ r = Ok a.
Proof. unfold lift. by intros [= -> ->]. Qed.

Lemma get_Ok {S} (s s' a : S) : get s = (s', Ok a) → s' = s ∧ a = s.
Proof. by intros [= -> ->]. Qed.


Lemma preserves_lift {S A} (r : result A) : preserves (lift (S := S) r).
Proof. done. Qed.

Lemma preserves_ret {S A} (a : A) : preserves (mret (M := stex S) a).
Proof. done. Qed.

End PyFacts.

(** [stex_inv H as a s H1] splits a hypothesis [H : (m ≫= k) s0 = (s', Ok b)]
    into [H1 : m s0 = (s, Ok a)] and [H : k a s = (s', Ok b)]. *)
Tactic Notation "stex_inv" hyp(H) "as" simple_intropattern(a) ident(s) ident(H1) :=
  apply PyFacts.stex_bind_Ok in H as (a & s & H1 & H).

(** ** The builders *)

Module BuilderFacts.
Import Builder PyFacts.
#[local] Open Scope list_scope.

(** *** [build_model] *)

(** C7. For a configuration with a ['model_cfg'] entry and a hashable
    ['type'] value: when the type is not a registered model name,
    [build_model] raises the error that carries the given type and the
    whole list of keys of the model registry, a name being listed exactly
    when it is registered; when the type is registered, [build_model]
    returns what the registered constructor returns on the keyword
    arguments [cfg['model_cfg']]. *)
Theorem build_model_dispatch {T} (MODELS : Registry.t (ctor T))
    (cfg : gmap string value) (model_cfg model_type : value) :
  cfg !! "model_cfg" = Some model_cfg →
  cfg !! "type" = Some model_type →
  hashable model_type = true →
  (∀ name, name ∈ Registry.keys MODELS ↔ is_Some (Registry.lookup MODELS name)) ∧
  ((∀ name, model_type = VStr name → Registry.lookup MODELS name = None) →
   build_model MODELS cfg
   = Raise (UnsupportedType model_type (Registry.keys MODELS))) ∧
  (∀ name make, model_type = VStr name → Registry.lookup MODELS name = Some make →
   build_model MODELS cfg = kwargs model_cfg ≫= make).
Proof.
  intros Hcfg Htype Hhash. split; [apply registry_keys_lookup|].
  unfold build_model, dict_get. rewrite Hcfg, Htype. simpl. split.
  - intros Hnot. destruct model_type; simpl in *; try done.
    rewrite bool_decide_eq_false_2; [done|].
    rewrite registry_keys_lookup, (Hnot s eq_refl). by intros [? [=]].
  - intros name make -> Hmake. simpl.
    rewrite bool_decide_eq_true_2 by (apply registry_keys_lookup; eauto).
    simpl. by rewrite Hmake.
Qed.

(** C7, on the registry of [model.py]: an unknown type is answered with
    the one registered name, and the registered type reaches the
    constructor of [ResNetDeepFashion] with the model configuration. *)
Lemma build_model_dispatch_witness :
  build_model (Model.MODELS (O := nat) Examples.BACKBONES Examples.CLS_HEADS)
    {[ "type" := VStr "ResNet"; "model_cfg" := VDict Examples.model_cfg ]}
  = Raise (UnsupportedType (VStr "ResNet") ["ResNetDeepFashion"]) ∧
  build_model (Model.MODELS (O := nat) Examples.BACKBONES Examples.CLS_HEADS)
    {[ "type" := VStr "ResNetDeepFashion"; "model_cfg" := VDict Examples.model_cfg ]}
  = Model.__init__ Examples.BACKBONES Examples.CLS_HEADS Examples.model_cfg.
Proof.
  split.
  - destruct (build_model_dispatch
                (Model.MODELS (O := nat) Examples.BACKBONES Examples.CLS_HEADS)
                {[ "type" := VStr "ResNet"; "model_cfg" := VDict Examples.model_cfg ]}
                (VDict Examples.model_cfg) (VStr "ResNet")) as (_ & H & _);
      [reflexivity | reflexivity | reflexivity |].
    apply H. intros name [= <-]. reflexivity.
  - destruct (build_model_dispatch
                (Model.MODELS (O := nat) Examples.BACKBONES Examples.CLS_HEADS)
                {[ "type" := VStr "ResNetDeepFashion";
                   "model_cfg" := VDict Examples.model_cfg ]}
                (VDict Examples.model_cfg) (VStr "ResNetDeepFashion")) as (_ & _ & H);
      [reflexivity | reflexivity | reflexivity |].
    exact (H "ResNetDeepFashion"
             (Model.__init__ Examples.BACKBONES Examples.CLS_HEADS) eq_refl eq_refl).
Defined.

(** *** [build_dataset] *)

Section build_dataset.
Context {D : Type}.
Variable DATASETS : Registry.t (ctor D).
Variable prepare_data : result (value * value).

Lemma local_Ok var (get_var : @frame D → option value) f f' v :
  local var get_var f = (f', Ok v) → f' = f ∧ get_var f = Some v.
Proof.
  unfold local, mbind, stex_bind, get. destruct (get_var f); [|done].
  by intros [= -> ->].
Qed.

Lemma assign_dataset_cfg_Ok key k v (f f' : @frame D) :
  assign_dataset_cfg key k v f = (f', Ok tt) →
  ∃ entry cfg,
    assoc key (data f) = Some (VDict entry) ∧
    entry !! "dataset_cfg" = Some (VDict cfg) ∧
    f' = Frame (assoc_set key (VDict (<["dataset_cfg" := VDict (<[k := v]> cfg)]> entry))
                          (data f))
               (splits f) (annotations f) (ret f).
Proof.
  unfold assign_dataset_cfg. intros H.
  stex_inv H as f0 s0 H0. apply get_Ok in H0 as [-> ->].
  stex_inv H as entry s0 H0. apply lift_Ok in H0 as [-> Hentry].
  stex_inv H as cfg s0 H0. apply lift_Ok in H0 as [-> Hcfg].
  stex_inv H as cfg' s0 H0. apply lift_Ok in H0 as [-> Hset].
  stex_inv H as entry' s0 H0. apply lift_Ok in H0 as [-> Hset'].
  injection H as <-.
  destruct (assoc key (data f)) as [e|]; [|done]. injection Hentry as ->.
  apply getitem_Ok in Hcfg as (e & -> & Hcfg).
  destruct cfg; try done. simpl in Hset, Hset'.
  injection Hset as <-. injection Hset' as <-. eauto.
Qed.

(** One successful turn of the loop. *)
Lemma build_one_Ok key (f f' : @frame D) :
  build_one DATASETS prepare_data key f = (f', Ok tt) →
  ∃ entry cfg ty make s a d,
    assoc key (data f) = Some (VDict entry) ∧
    entry !! "dataset_cfg" = Some (VDict cfg) ∧
    entry !! "type" = Some (VStr ty) ∧
    Registry.lookup DATASETS ty = Some make ∧
    (if String.eqb key "train_dataset" then prepare_data = Ok (s, a)
     else splits f = Some s ∧ annotations f = Some a) ∧
    make (<["garment_annotations" := a]> (<["split_info" := s]> cfg)) = Ok d ∧
    f' = Frame (assoc_set key
                  (VDict (<["dataset_cfg" :=
                              VDict (<["garment_annotations" := a]>
                                       (<["split_info" := s]> cfg))]> entry))
                  (data f))
               (Some s) (Some a) (assoc_set key d (ret f)).
Proof.
  unfold build_one. intros H.
  stex_inv H as f0 s0 H0. apply get_Ok in H0 as [-> ->].
  stex_inv H as entry s0 H0. apply lift_Ok in H0 as [-> Hentry].
  stex_inv H as cfg0 s0 H0. apply lift_Ok in H0 as [-> Hcfg].
  stex_inv H as dataset_type s0 H0. apply lift_Ok in H0 as [-> Hty].
  stex_inv H as known s0 H0. apply lift_Ok in H0 as [-> Hknown].
  stex_inv H as [] f1 Hcheck.
  destruct (assoc key (data f)) as [e|] eqn:Hassoc; [|done].
  injection Hentry as ->.
  apply getitem_Ok in Hcfg as (e & -> & Hcfg0).
  apply getitem_Ok in Hty as (e' & [= <-] & Hty).
  destruct known; simpl in Hcheck; [|done]. injection Hcheck as <-.
  assert (∃ ty, dataset_type = VStr ty ∧ ty ∈ Registry.keys DATASETS)
    as (ty & -> & Hin).
  { destruct dataset_type; simpl in Hknown; try done.
    injection Hknown as Hk. apply bool_decide_eq_true_1 in Hk. eauto. }
  stex_inv H as [] f2 Hprep.
  stex_inv H as s f3 Hs. apply local_Ok in Hs as [-> Hs].
  stex_inv H as [] f3 Ha1.
  apply assign_dataset_cfg_Ok in Ha1 as (entry1 & cfg1 & He1 & Hc1 & ->).
  stex_inv H as a f4 Ha. apply local_Ok in Ha as [-> Ha]. simpl in Ha.
  stex_inv H as [] f5 Ha2.
  apply assign_dataset_cfg_Ok in Ha2 as (entry2 & cfg2 & He2 & Hc2 & ->).
  simpl in *.
  stex_inv H as make f6 Hmake. apply lift_Ok in Hmake as [-> Hmake].
  stex_inv H as f7 f6 Hget. apply get_Ok in Hget as [-> ->].
  stex_inv H as kw f6 Hkw. apply lift_Ok in Hkw as [-> Hkw].
  stex_inv H as d f6 Hd. apply lift_Ok in Hd as [-> Hd].
  injection H as <-. simpl in *.
  assert (data f2 = data f ∧ ret f2 = ret f ∧
          (if String.eqb key "train_dataset" then prepare_data = Ok (s, a)
           else splits f = Some s ∧ annotations f = Some a)) as (Hd2 & Hr2 & Hp).
  { destruct (String.eqb key "train_dataset").
    - stex_inv Hprep as [s' a'] f3 Hp. apply lift_Ok in Hp as [-> Hp].
      injection Hprep as <-. simpl in *.
      injection Hs as <-. injection Ha as <-. done.
    - injection Hprep as <-. done. }
  rewrite Hd2 in *. rewrite Hassoc in He1. injection He1 as <-.
  rewrite Hcfg0 in Hc1. injection Hc1 as ->.
  rewrite assoc_assoc_set, String.eqb_refl in He2. injection He2 as <-.
  rewrite lookup_insert_eq in Hc2. injection Hc2 as <-.
  rewrite assoc_assoc_set, String.eqb_refl in Hkw. simpl in Hkw.
  unfold dict_get in Hkw. rewrite lookup_insert_eq in Hkw. simpl in Hkw.
  injection Hkw as <-.
  destruct (Registry.lookup DATASETS ty) eqn:Hl; [|done]. injection Hmake as ->.
  exists e, cfg1, ty, make, s, a, d. repeat split; try done.
  by rewrite assoc_set_assoc_set, insert_insert_eq, Hr2, Hs, Ha.
Qed.

(** The loop, by induction on the keys still to be dealt with: the keys
    dealt with are built, the others are untouched. *)
Lemma for_each_build_one keys : ∀ (f f' : @frame D),
  NoDup keys →
  prepared prepare_data f →
  for_each keys (build_one DATASETS prepare_data) f = (f', Ok tt) →
  prepared prepare_data f' ∧
  (∀ key, key ∈ keys →
     built DATASETS prepare_data (data f) (data f') (ret f') key) ∧
  (∀ key, key ∉ keys →
     assoc key (data f') = assoc key (data f) ∧ assoc key (ret f') = assoc key (ret f)).
Proof.
  induction keys as [|key keys IH]; intros f f' Hnd Hprep H; simpl in H.
  - injection H as <-. split; [done|]. split; [|done]. intros key Hin. inversion Hin.
  - stex_inv H as [] f1 H1.
    apply NoDup_cons in Hnd as [Hnotin Hnd].
    apply build_one_Ok in H1
      as (entry & cfg & ty & make & s & a & d & He & Hc & Ht & Hm & Hp & Hd & ->).
    assert (prepare_data = Ok (s, a)) as Hpd.
    { destruct (String.eqb key "train_dataset"); [done|].
      destruct Hp as [Hs Ha].
      destruct Hprep as [[Hs' _]|(s' & a' & Hpd & Hs' & Ha')]; congruence. }
    apply IH in H as (Hprep' & Hin & Hout); [|done|right; eauto].
    simpl in *. split; [done|]. split.
    + intros key' Hin'. apply elem_of_cons in Hin' as [->|Hin'].
      * destruct (Hout key Hnotin) as [Hdk Hrk].
        rewrite assoc_assoc_set, String.eqb_refl in Hdk.
        rewrite assoc_assoc_set, String.eqb_refl in Hrk.
        exists entry, cfg, ty, make, s, a, d. done.
      * destruct (Hin key' Hin')
          as (entry' & cfg' & ty' & make' & s' & a' & d' & He' & ?).
        rewrite assoc_assoc_set in He'.
        destruct (String.eqb_spec key' key) as [->|Hne]; [done|].
        exists entry', cfg', ty', make', s', a', d'. done.
    + intros key' Hnotin'. apply not_elem_of_cons in Hnotin' as [Hne Hnotin'].
      destruct (Hout key' Hnotin') as [Hdk Hrk].
      rewrite assoc_assoc_set in Hdk. rewrite assoc_assoc_set in Hrk.
      by destruct (String.eqb_spec key' key).
Qed.

(** C2, as the code has it.  Whenever [build_dataset] returns, every key
    of the configuration whose name contains "dataset" -- the key
    "train_dataset" and every other one alike -- has been built: its
    configuration received ['split_info'] and ['garment_annotations'], the
    pair [prepare_data] returned, before its constructor was called, and
    the constructor's result is in the returned dict. *)
Theorem build_dataset_injection (data data' : list (string * value))
    (ret : list (string * D)) :
  NoDup data.*1 →
  build_dataset DATASETS prepare_data data = (data', Ok ret) →
  ∀ key, key ∈ dataset_keys data →
         built DATASETS prepare_data data data' ret key.
Proof.
  intros Hnd H key Hin. unfold build_dataset in H.
  destruct (for_each _ _ _) as [[d1 s1 a1 r1] [[]|e]] eqn:Hloop; [|done].
  injection H as <- <-.
  apply for_each_build_one in Hloop as (_ & Hall & _).
  - by apply Hall.
  - by apply NoDup_filter.
  - by left.
Qed.

(** When the first dataset key is not "train_dataset" and its entry is
    well formed, the call raises at the first read of the local [splits],
    before anything has been written. *)
Lemma build_dataset_unbound (data : list (string * value)) key rest
    (entry : gmap string value) dataset_cfg dataset_type :
  dataset_keys data = key :: rest →
  key ≠ "train_dataset" →
  assoc key data = Some (VDict entry) →
  entry !! "dataset_cfg" = Some dataset_cfg →
  entry !! "type" = Some (VStr dataset_type) →
  dataset_type ∈ Registry.keys DATASETS →
  build_dataset DATASETS prepare_data data
  = (data, Raise (UnboundLocalError "splits")).
Proof.
  intros Hkeys Hkey Hentry Hcfg Htype Hreg.
  unfold build_dataset. rewrite Hkeys. simpl.
  unfold mbind at 1, stex_bind. unfold build_one.
  unfold mbind, stex_bind, get, lift, local. simpl.
  rewrite Hentry. simpl. unfold dict_get. rewrite Hcfg, Htype. simpl.
  rewrite bool_decide_eq_true_2 by done. simpl.
  destruct (String.eqb_spec key "train_dataset") as [|_]; [done|]. simpl.
  reflexivity.
Qed.

End build_dataset.

(** C2, on a configuration with the training split first, a validation
    split and an entry that is not a dataset: the validation split is
    built, with both structures in its configuration. *)
Lemma build_dataset_injection_witness :
  built Examples.DATASETS Examples.prepared_data Examples.data0
        (build_dataset Examples.DATASETS Examples.prepared_data Examples.data0).1
        [ ("train_dataset",
           {[ "root" := VStr "train"; "split_info" := VObj 1;
              "garment_annotations" := VObj 2 ]});
          ("val_dataset",
           {[ "root" := VStr "val"; "split_info" := VObj 1;
              "garment_annotations" := VObj 2 ]}) ]
        "val_dataset".
Proof.
  apply (build_dataset_injection Examples.DATASETS Examples.prepared_data
           Examples.data0).
  - apply (bool_decide_unpack _). vm_compute. exact I.
  - vm_compute. reflexivity.
  - apply (bool_decide_unpack _). vm_compute. exact I.
Defined.

(** C2 as stated fails: the entry keyed "val_dataset" is not the entry
    keyed "train_dataset", and its constructor is called with
    ['split_info'] and ['garment_annotations'] in the configuration. *)
Lemma build_dataset_injects_into_val :
  ∃ ret kw,
    (build_dataset Examples.DATASETS Examples.prepared_data Examples.data0).2 = Ok ret ∧
    assoc "val_dataset" ret = Some kw ∧
    kw !! "split_info" = Some (VObj 1) ∧
    kw !! "garment_annotations" = Some (VObj 2).
Proof.
  eexists _, _. split; [vm_compute; reflexivity|]. repeat split; reflexivity.
Qed.

(** The slip next to it: a dataset entry that comes before
    "train_dataset" reads the local [splits] before it is bound. *)
Lemma build_dataset_unbound_witness :
  build_dataset Examples.DATASETS Examples.prepared_data Examples.data_val_first
  = (Examples.data_val_first, Raise (UnboundLocalError "splits")).
Proof.
  apply (build_dataset_unbound Examples.DATASETS Examples.prepared_data
           Examples.data_val_first "val_dataset" ["train_dataset"]
           {[ "type" := VStr "Recorded";
              "dataset_cfg" := VDict {[ "root" := VStr "val" ]} ]}
           (VDict {[ "root" := VStr "val" ]}) "Recorded").
  - reflexivity.
  - intros [=].
  - reflexivity.
  - reflexivity.
  - reflexivity.
  - apply (bool_decide_unpack _). vm_compute. exact I.
Defined.

(** *** [build_optimizer] *)

Section build_optimizer.
Context {O : Type}.
Variable OPTIMIZERS : list (string * ctor O).

Lemma existsb_is_str (names : list value) (name : string) :
  existsb (is_str name) names = true ↔ VStr name ∈ names.
Proof.
  rewrite existsb_exists. split.
  - intros (v & Hin & Hv). destruct v; try done.
    apply String.eqb_eq in Hv as ->. by apply list_elem_of_In.
  - intros Hin. exists (VStr name). split; [by apply list_elem_of_In|].
    apply String.eqb_refl.
Qed.

(** The loop over the modules, for a list of names: the local list grows
    by the parameters of each selected module, and the dict receives
    [None] under ['params'] as soon as one module is selected. *)
Lemma select_modules_list names (mods : list (string * Torch.Module)) :
  ∀ (trainable_params : list positive) (optimizer_cfg : gmap string value),
  for_each mods (fun '(name, module) => select_module (VList names) name module)
           (trainable_params, VDict optimizer_cfg)
  = ((trainable_params ++
        flat_map (fun '(_, module) => Torch.parameters module)
                 (List.filter (fun '(name, _) => existsb (is_str name) names) mods),
      VDict (if existsb (fun '(name, _) => existsb (is_str name) names) mods
             then <["params" := VNone]> optimizer_cfg
             else optimizer_cfg)),
     Ok tt).
Proof.
  induction mods as [|[name module] mods IH]; intros tp d; simpl.
  - by rewrite app_nil_r.
  - unfold mbind at 1, stex_bind. unfold select_module at 1.
    unfold mbind at 1, stex_bind, lift. simpl.
    destruct (existsb (is_str name) names) eqn:Hsel; simpl.
    + rewrite IH. rewrite insert_insert_eq. rewrite <- app_assoc.
      by destruct (existsb _ mods).
    + by rewrite IH.
Qed.

(** With [cfg['params']] set to [None], the local list is the model's
    parameters whose flag is set in the store at the time of the call. *)
Lemma collect_params_none h model (optimizer_cfg : value) :
  collect_params h VNone model ([], optimizer_cfg)
  = ((filter (fun x => Is_true (Torch.requires_grad h x)) (Torch.parameters model),
      optimizer_cfg), Ok tt).
Proof. reflexivity. Qed.

(** That list is empty exactly when no parameter of the model has its
    flag set. *)
Lemma collect_params_none_empty h model (optimizer_cfg : value) :
  (collect_params h VNone model ([], optimizer_cfg)).1.1 = [] ↔
  ∀ p, p ∈ Torch.parameters model → Torch.requires_grad h p = false.
Proof.
  rewrite collect_params_none. simpl. split.
  - intros H p Hp. destruct (Torch.requires_grad h p) eqn:Hflag; [|done].
    exfalso. eapply filter_nil_not_elem_of; [exact H| |exact Hp].
    simpl. by rewrite Hflag.
  - intros H. induction (Torch.parameters model) as [|p l IH]; [done|].
    rewrite filter_cons_False.
    + apply IH. intros q Hq. apply H. by right.
    + rewrite H by left. simpl. tauto.
Qed.

(** What the call returns, and what it leaves in the caller's
    configuration, is the same whatever the flags in the store are. *)
Lemma build_optimizer_ignores_requires_grad h1 h2 cfg model :
  build_optimizer OPTIMIZERS h1 cfg model = build_optimizer OPTIMIZERS h2 cfg model.
Proof.
  unfold build_optimizer.
  destruct (dict_get cfg "type") as [ty|]; [|done].
  destruct (dict_get cfg "optimizer_cfg") as [oc|]; [|done].
  destruct (dict_get cfg "params") as [params|]; [|done].
  destruct params; done.
Qed.

(** C10. When [cfg['params']] is a list that holds the name of a module
    of the model and [cfg['optimizer_cfg']] is a dict: after the call the
    caller's configuration holds, under ['optimizer_cfg'], the dict with
    ['params'] set to [None]; the configuration has changed unless
    ['params'] was [None] already; and the parameters of the selected
    modules are in the local list, not in the dict. *)
Theorem build_optimizer_assigns_none h (cfg : gmap string value) model
    optimizer_type (optimizer_cfg : gmap string value) names name :
  cfg !! "type" = Some optimizer_type →
  cfg !! "optimizer_cfg" = Some (VDict optimizer_cfg) →
  cfg !! "params" = Some (VList names) →
  VStr name ∈ names →
  name ∈ (Torch.named_modules model).*1 →
  (build_optimizer OPTIMIZERS h cfg model).1
  = <["optimizer_cfg" := VDict (<["params" := VNone]> optimizer_cfg)]> cfg ∧
  (optimizer_cfg !! "params" ≠ Some VNone →
   (build_optimizer OPTIMIZERS h cfg model).1 ≠ cfg) ∧
  (collect_params h (VList names) model ([], VDict optimizer_cfg)).1
  = (flat_map (fun '(_, module) => Torch.parameters module)
       (List.filter (fun '(name, _) => existsb (is_str name) names)
                    (Torch.named_modules model)),
     VDict (<["params" := VNone]> optimizer_cfg)).
Proof.
  intros Htype Hcfg Hparams Hname Hmod.
  assert (existsb (fun '(name, _) => existsb (is_str name) names)
                  (Torch.named_modules model) = true) as Hsome.
  { apply existsb_exists. apply list_elem_of_fmap in Hmod as ([n m] & -> & Hin).
    exists (n, m). split; [by apply list_elem_of_In|]. by apply existsb_is_str. }
  assert ((collect_params h (VList names) model ([], VDict optimizer_cfg)).1
          = (flat_map (fun '(_, module) => Torch.parameters module)
               (List.filter (fun '(name, _) => existsb (is_str name) names)
                            (Torch.named_modules model)),
             VDict (<["params" := VNone]> optimizer_cfg))) as Hcollect.
  { unfold collect_params. rewrite select_modules_list, Hsome. done. }
  assert ((build_optimizer OPTIMIZERS h cfg model).1
          = <["optimizer_cfg" := VDict (<["params" := VNone]> optimizer_cfg)]> cfg)
    as Hfinal.
  { unfold build_optimizer, dict_get. rewrite Htype, Hcfg, Hparams.
    destruct (collect_params _ _ _ _) as [[tp oc] r]. simpl in Hcollect.
    injection Hcollect as _ ->. done. }
  split; [done|]. split; [|done].
  rewrite Hfinal. intros Hne Heq. apply Hne.
  apply (f_equal (fun m => m !! "optimizer_cfg")) in Heq.
  rewrite lookup_insert_eq, Hcfg in Heq. injection Heq as Heq.
  rewrite <- Heq. apply lookup_insert_eq.
Qed.

(** With [cfg['params']] set to [None] and no ['params'] entry in the
    dict ['optimizer_cfg'], the call raises [KeyError('params')], whatever
    the type is, registered or not: the branch stores nothing under
    ['params'], and the log line reads that entry before the type is
    looked up. *)
Lemma build_optimizer_none_unset h (cfg : gmap string value) model
    optimizer_type (optimizer_cfg : gmap string value) :
  cfg !! "type" = Some optimizer_type →
  cfg !! "optimizer_cfg" = Some (VDict optimizer_cfg) →
  cfg !! "params" = Some VNone →
  optimizer_cfg !! "params" = None →
  build_optimizer OPTIMIZERS h cfg model = (cfg, Raise (KeyError "params")).
Proof.
  intros Htype Hcfg Hparams Hunset.
  unfold build_optimizer, dict_get. rewrite Htype, Hcfg, Hparams.
  rewrite collect_params_none. simpl. unfold dict_get. rewrite Hunset.
  by rewrite insert_id.
Qed.

(** C8. On the configuration of the example the call raises
    [KeyError('params')]: the dict ['optimizer_cfg'] is empty, and it is
    read under ['params'] for the log line before the type is looked up.
    No optimizer name is listed. *)
Theorem build_optimizer_nonexistent h model :
  build_optimizer OPTIMIZERS h Examples.cfg_nonexistent model
  = (Examples.cfg_nonexistent, Raise (KeyError "params")).
Proof.
  apply (build_optimizer_none_unset h Examples.cfg_nonexistent model
           (VStr "Nonexistent") ∅).
  - reflexivity.
  - reflexivity.
  - reflexivity.
  - apply lookup_empty.
Qed.

End build_optimizer.

(** C10, on the model of the example and the list [['cls_head']]. *)
Lemma build_optimizer_assigns_none_witness :
  (build_optimizer Examples.OPTIMIZERS Examples.heap0 Examples.cfg_head
     (Model.module_of Examples.model0)).1
  = <["optimizer_cfg" :=
        VDict (<["params" := VNone]> {[ "lr" := VFloat (1 # 1000) ]})]> Examples.cfg_head ∧
  (({[ "lr" := VFloat (1 # 1000) ]} : gmap string value) !! "params" ≠ Some VNone →
   (build_optimizer Examples.OPTIMIZERS Examples.heap0 Examples.cfg_head
      (Model.module_of Examples.model0)).1 ≠ Examples.cfg_head) ∧
  (collect_params Examples.heap0 (VList [VStr "cls_head"])
     (Model.module_of Examples.model0) ([], VDict {[ "lr" := VFloat (1 # 1000) ]})).1
  = (flat_map (fun '(_, module) => Torch.parameters module)
       (List.filter (fun '(name, _) => existsb (is_str name) [VStr "cls_head"])
                    (Torch.named_modules (Model.module_of Examples.model0))),
     VDict (<["params" := VNone]> {[ "lr" := VFloat (1 # 1000) ]})).
Proof.
  apply (build_optimizer_assigns_none Examples.OPTIMIZERS Examples.heap0
           Examples.cfg_head (Model.module_of Examples.model0) (VStr "Adam")
           {[ "lr" := VFloat (1 # 1000) ]} [VStr "cls_head"] "cls_head").
  - reflexivity.
  - reflexivity.
  - reflexivity.
  - constructor.
  - apply (bool_decide_unpack _). vm_compute. exact I.
Defined.

(** C1.  The collected parameters do not reach the constructor.  With
    [cfg['params']] set to [None] and no ['params'] entry in
    ['optimizer_cfg'], the call raises [KeyError('params')] whatever the
    model and the registered optimizers are.  With the list
    [['cls_head']], whose module has the parameters 4 and 5, the
    constructor is called with ['params'] set to [None]. *)
Theorem build_optimizer_drops_parameters :
  (∀ (O : Type) (OPTIMIZERS : list (string * ctor O)) h model,
     (build_optimizer OPTIMIZERS h Examples.cfg_all model).2
     = Raise (KeyError "params")) ∧
  (collect_params Examples.heap0 (VList [VStr "cls_head"])
     (Model.module_of Examples.model0)
     ([], VDict {[ "lr" := VFloat (1 # 1000) ]})).1.1 = [4%positive; 5%positive] ∧
  (build_optimizer Examples.OPTIMIZERS Examples.heap0 Examples.cfg_head
     (Model.module_of Examples.model0)).2
  = Ok {[ "lr" := VFloat (1 # 1000); "params" := VNone ]}.
Proof.
  split; [|split].
  - intros O OPTIMIZERS h model.
    rewrite (build_optimizer_none_unset OPTIMIZERS h Examples.cfg_all model
               (VStr "Adam") {[ "lr" := VFloat (1 # 1000) ]}); reflexivity.
  - vm_compute. reflexivity.
  - vm_compute. reflexivity.
Qed.

End BuilderFacts.

(** ** The model *)

Module ModelFacts.
Import Torch Model PyFacts.
#[local] Open Scope list_scope.

(** *** Tensors *)








Section ResNetDeepFashion.
Context {O : Type} `{!Kernels O}.
Variable BACKBONES : Registry.t (result Net).
Variable CLS_HEADS : Registry.t (Builder.ctor Head).

(** *** Assembly *)

Lemma prepare_model_Ok (self self' : ResNetDeepFashion (O := O)) :
  _prepare_model CLS_HEADS self = (self', Ok tt) →
  ∃ final W ty (config : gmap string value) make head,
    last (children (backbone self)) = Some final ∧
    in_features (layer_module final) = Some W ∧
    cls_head_type self = VStr ty ∧
    cls_head_config self = VDict config ∧
    Registry.lookup CLS_HEADS ty = Some make ∧
    make (<["fan_in" := W]> config) = Ok head ∧
    self' = Self (VStr ty) (Sequential (removelast (children (backbone self))))
                 (Some head) (optimizer self) (VDict (<["fan_in" := W]> config)).
Proof.
  unfold _prepare_model. intros H.
  stex_inv H as s0 s1 H0. apply get_Ok in H0 as [-> ->].
  stex_inv H as final s1 H0. apply lift_Ok in H0 as [-> Hlast].
  stex_inv H as W s1 H0. apply lift_Ok in H0 as [-> HW].
  stex_inv H as [] s1 H0. injection H0 as <-.
  stex_inv H as s0 s1 H0. apply get_Ok in H0 as [-> ->]. simpl in H.
  stex_inv H as config' s1 H0. apply lift_Ok in H0 as [-> Hset].
  stex_inv H as [] s1 H0. injection H0 as <-.
  stex_inv H as s0 s1 H0. apply get_Ok in H0 as [-> ->]. simpl in H.
  stex_inv H as make s1 H0. apply lift_Ok in H0 as [-> Hmake].
  stex_inv H as kw s1 H0. apply lift_Ok in H0 as [-> Hkw].
  stex_inv H as head s1 H0. apply lift_Ok in H0 as [-> Hhead].
  injection H as <-. simpl.
  destruct (last _) as [final'|] eqn:Hfinal; [|done]. injection Hlast as ->.
  destruct (in_features _) as [W'|] eqn:Hwidth; [|done]. injection HW as ->.
  destruct (cls_head_config self) as [| | | | | |config|] eqn:Hconfig; try done.
  injection Hset as <-. injection Hkw as <-.
  destruct (cls_head_type self) as [| | | |ty| | |] eqn:Hty; simpl in Hmake; try done.
  destruct (Registry.lookup CLS_HEADS ty) as [make'|] eqn:Hl; [|done].
  injection Hmake as ->.
  exists final, W, ty, config, make, head. done.
Qed.

(** C4. A model constructed from the keyword arguments [backbone],
    [cls_head_type] and [cls_head_config] was assembled as follows: the
    backbone registered under the name was instantiated; [W] is the
    [in_features] of the last of its children; the model's backbone is
    the sequence of its children without the last; the head
    configuration is the given one with ['fan_in'] set to [W]; and the
    head is what the registered head constructor returned on that
    configuration, in which ['fan_in'] is [W]. *)
Theorem init_injects_fan_in (kwargs : gmap string value)
    (self : ResNetDeepFashion (O := O)) :
  __init__ BACKBONES CLS_HEADS kwargs = Ok self →
  ∃ name net final W ty (config : gmap string value) make head,
    kwargs !! "backbone" = Some (VStr name) ∧
    Registry.lookup BACKBONES name = Some (Ok net) ∧
    last (children net) = Some final ∧
    in_features (layer_module final) = Some W ∧
    backbone self = Sequential (removelast (children net)) ∧
    kwargs !! "cls_head_type" = Some (VStr ty) ∧
    kwargs !! "cls_head_config" = Some (VDict config) ∧
    cls_head_config self = VDict (<["fan_in" := W]> config) ∧
    (<["fan_in" := W]> config) !! "fan_in" = Some W ∧
    Registry.lookup CLS_HEADS ty = Some make ∧
    make (<["fan_in" := W]> config) = Ok head ∧
    cls_head self = Some head.
Proof.
  unfold __init__, dict_get. intros H.
  destruct (kwargs !! "cls_head_type") as [ty|] eqn:Hty; [|done].
  destruct (kwargs !! "backbone") as [name|] eqn:Hname; [|done].
  simpl in H.
  destruct (Registry.getitem BACKBONES name) as [factory|] eqn:Hfactory; [|done].
  simpl in H. destruct factory as [net|]; [|done]. simpl in H.
  destruct (kwargs !! "cls_head_config") as [config|] eqn:Hconfig; [|done].
  simpl in H.
  destruct (_prepare_model _ _) as [self' [[]|]] eqn:Hprep; [|done].
  injection H as ->.
  apply prepare_model_Ok in Hprep
    as (final & W & ty' & config' & make & head & ? & ? & ? & ? & ? & ? & ->).
  simpl in *. subst.
  destruct name as [| | | |name| | |]; simpl in Hfactory; try done.
  destruct (Registry.lookup BACKBONES name) as [f|] eqn:Hl; [|done].
  injection Hfactory as ->.
  exists name, net, final, W, ty', config', make, head.
  rewrite lookup_insert_eq. done.
Qed.

(** *** Freezing *)

Lemma foldl_set_requires_grad b (l : list positive) :
  ∀ (h : gmap positive pstate) p,
  foldl (fun h param => set_requires_grad b param h) h l !! p
  = if bool_decide (p ∈ l) then set_flag b <$> (h !! p) else h !! p.
Proof.
  induction l as [|x l IH]; intros h p; simpl.
  - done.
  - rewrite IH. unfold set_requires_grad. rewrite lookup_alter.
    destruct (decide (x = p)) as [->|Hne].
    + rewrite (bool_decide_eq_true_2 (p ∈ p :: l)) by left.
      destruct (bool_decide (p ∈ l)); [|done]. by destruct (h !! p).
    + destruct (bool_decide_reflect (p ∈ l)) as [Hin|Hnin].
      * by rewrite bool_decide_eq_true_2 by (by right).
      * rewrite bool_decide_eq_false_2; [done|].
        intros Hin. apply elem_of_cons in Hin as [->|]; done.
Qed.

(** After [freeze_weights] every parameter of the backbone has its flag
    cleared, with its tensor and gradient as before, and every other
    parameter -- those of the head, unless the backbone shares them -- is
    as before; the model object and the gradient mode are as before. *)
Lemma freeze_weights_spec (w : world (O := O)) :
  self (freeze_weights w).1 = self w ∧
  grad_enabled (freeze_weights w).1 = grad_enabled w ∧
  (∀ p, p ∈ parameters (net_module (backbone (self w))) →
        heap (freeze_weights w).1 !! p = set_flag false <$> heap w !! p ∧
        requires_grad (heap (freeze_weights w).1) p = false) ∧
  (∀ p, p ∉ parameters (net_module (backbone (self w))) →
        heap (freeze_weights w).1 !! p = heap w !! p).
Proof.
  unfold freeze_weights, set_backbone_requires_grad, modify. simpl.
  split; [done|]. split; [done|]. split; intros p Hp.
  - unfold requires_grad. rewrite foldl_set_requires_grad.
    rewrite bool_decide_eq_true_2 by done. by destruct (heap w !! p).
  - rewrite foldl_set_requires_grad. by rewrite bool_decide_eq_false_2.
Qed.

(** *** Forward *)

Lemma world_eta (w : world (O := O)) : World (self w) (heap w) (grad_enabled w) = w.
Proof. by destruct w. Qed.

(** C3. [forward] returns [(preds, emb, loss)] exactly when: the backbone,
    run with the gradient mode off on the current parameters -- whatever
    their [requires_grad] flags and whatever the gradient mode of the
    caller --, returns some [out]; the head, run in the caller's gradient
    mode on [out], returns [(preds, emb)]; and [loss] is the cross-entropy
    of [preds] against the targets when targets are given, [None] when
    they are not.  The model, the parameters and the gradient mode are
    then as before the call. *)
Theorem forward_contract (w w' : world (O := O)) x targets preds emb loss :
  forward x targets w = (w', Ok (preds, emb, loss)) ↔
  w' = w ∧
  ∃ out head,
    net_forward (backbone (self w)) false (heap w) x = Ok out ∧
    cls_head (self w) = Some head ∧
    head_forward head (grad_enabled w) (heap w) out = Ok (preds, emb) ∧
    match targets with
    | Some t => ∃ l, cross_entropy (grad_enabled w) preds t = Ok l ∧ loss = Some l
    | None => loss = None
    end.
Proof.
  unfold forward, mbind, stex_bind, get, no_grad, run, lift. simpl.
  rewrite world_eta. split.
  - intros H.
    destruct (net_forward _ _ _ _) as [out|e]; [|done].
    destruct (cls_head (self w)) as [head|]; [|done]. simpl in H.
    destruct (head_forward _ _ _ _) as [[p e]|e] eqn:Hhead; [|done].
    destruct targets as [t|]; simpl in H.
    + destruct (cross_entropy _ _ _) as [l|] eqn:Hloss; [|done].
      injection H as <- <- <- <-. split; [done|]. exists out, head.
      repeat split; try done. by exists l.
    + injection H as <- <- <- <-. split; [done|]. by exists out, head.
  - intros (-> & out & head & -> & -> & Hhead & Hloss). simpl. rewrite Hhead.
    destruct targets as [t|]; simpl.
    + destruct Hloss as (l & -> & ->). done.
    + by subst.
Qed.

Lemma forward_preserves x targets : preserves (forward (O := O) x targets).
Proof.
  intros w. unfold forward, mbind, stex_bind, get, no_grad, run, lift. simpl.
  rewrite world_eta.
  destruct (net_forward _ _ _ _) as [out|e]; [|done].
  destruct (cls_head (self w)) as [head|]; [|done]. simpl.
  destruct (head_forward _ _ _ _) as [[p e]|e]; [|done].
  destruct targets as [t|]; simpl; [|done].
  by destruct (cross_entropy _ _ _).
Qed.


(** *** The validation step *)


(** *** The training step *)


Lemma loss_backward_Ok loss (w w1 : world (O := O)) :
  loss_backward loss w = (w1, Ok tt) →
  ∃ l h', loss = Some l ∧ backward l (heap w) = (h', Ok tt) ∧
          w1 = World (self w) h' (grad_enabled w).
Proof.
  unfold loss_backward. destruct loss as [l|]; [|done].
  destruct (backward l (heap w)) as [h' [[]|]] eqn:Hb; [|done].
  intros [= <-]. by exists l, h'.
Qed.



End ResNetDeepFashion.

(** C4, on the model the constructor returns for the two-layer backbone
    and the head of one linear layer: the width read is 3. *)
Lemma init_injects_fan_in_witness :
  ∃ name net final W ty (config : gmap string value) make head,
    Examples.model_cfg !! "backbone" = Some (VStr name) ∧
    Registry.lookup Examples.BACKBONES name = Some (Ok net) ∧
    last (children net) = Some final ∧
    in_features (layer_module final) = Some W ∧
    backbone Examples.model0 = Sequential (removelast (children net)) ∧
    Examples.model_cfg !! "cls_head_type" = Some (VStr ty) ∧
    Examples.model_cfg !! "cls_head_config" = Some (VDict config) ∧
    cls_head_config Examples.model0 = VDict (<["fan_in" := W]> config) ∧
    (<["fan_in" := W]> config) !! "fan_in" = Some W ∧
    Registry.lookup Examples.CLS_HEADS ty = Some make ∧
    make (<["fan_in" := W]> config) = Ok head ∧
    cls_head Examples.model0 = Some head.
Proof.
  apply (init_injects_fan_in Examples.BACKBONES Examples.CLS_HEADS
           Examples.model_cfg Examples.model0).
  reflexivity.
Defined.

Lemma model0_fan_in :
  cls_head_config Examples.model0
  = VDict {[ "n_classes" := VInt 3; "fan_in" := VInt 3 ]}.
Proof. reflexivity. Qed.

(** C9.  In the store where the head was frozen by hand, after
    [freeze_weights] no parameter of the model has its flag set; the
    call with [cfg['params']] set to [None] then raises
    [KeyError('params')] instead of building an optimizer without
    parameters.  In the store where the parameter 4 of the head has its
    flag set, the call on a configuration whose ['optimizer_cfg'] already
    has an empty ['params'] builds an optimizer with that empty list. *)
Theorem frozen_model_optimizer :
  let w := (freeze_weights Examples.world_head_frozen).1 in
  (∀ p, p ∈ parameters (module_of (self w)) → requires_grad (heap w) p = false) ∧
  (Builder.build_optimizer Examples.OPTIMIZERS (heap w) Examples.cfg_all
     (module_of (self w))).2 = Raise (KeyError "params") ∧
  requires_grad Examples.heap0 4 = true ∧
  (Builder.build_optimizer Examples.OPTIMIZERS Examples.heap0 Examples.cfg_preset
     (module_of Examples.model0)).2 = Ok {[ "params" := VList [] ]}.
Proof.
  repeat split.
  - intros p Hp.
    assert (p ∈ [1%positive; 4%positive; 5%positive]) as Hin by exact Hp.
    repeat (apply elem_of_cons in Hin as [->|Hin]; [reflexivity|]).
    inversion Hin.
Qed.

Lemma forward_returns :
  forward Examples.x0 None Examples.world0
  = (Examples.world0, Ok (Examples.x0, Examples.x0, None)).
Proof. reflexivity. Qed.

Lemma validation_step_returns :
  (validation_step Examples.x0 Examples.labels0 Examples.world0).2
  = Ok {[ "val_acc" := Finite (1 # 2); "val_loss" := Finite 1 ]}.
Proof. vm_compute. reflexivity. Qed.

(** The training step on the same batch does write the store. *)
Lemma training_step_writes :
  heap (training_step Examples.x0 Examples.labels0 Examples.world0).1 !! 4%positive
  ≠ heap Examples.world0 !! 4%positive.
Proof. vm_compute. intros [=]. Qed.



End ModelFacts.

(** ** The life cycle of the model: freezing, and steps that cannot run *)

Module LifeCycleFacts.
Import Torch Model PyFacts ModelFacts.
#[local] Open Scope list_scope.

Section ResNetDeepFashion.
Context {O : Type} `{!Kernels O}.
Variable BACKBONES : Registry.t (result Net).
Variable CLS_HEADS : Registry.t (Builder.ctor Head).

(** [unfreeze_weights] sets the flag [requires_grad] of every
    parameter of the backbone that is in the store, keeps its tensor and
    its gradient, and touches nothing else: not the parameters of the
    head, not the object, not the gradient mode. *)
Lemma unfreeze_weights_spec (w : world (O := O)) :
  self (unfreeze_weights w).1 = self w ∧
  grad_enabled (unfreeze_weights w).1 = grad_enabled w ∧
  (∀ p, p ∈ parameters (net_module (backbone (self w))) →
        heap (unfreeze_weights w).1 !! p = set_flag true <$> heap w !! p ∧
        (is_Some (heap w !! p) → requires_grad (heap (unfreeze_weights w).1) p = true)) ∧
  (∀ p, p ∉ parameters (net_module (backbone (self w))) →
        heap (unfreeze_weights w).1 !! p = heap w !! p).
Proof.
  repeat split; simpl.
  - rewrite foldl_set_requires_grad, bool_decide_eq_true_2 by done. done.
  - intros [st Hst]. unfold requires_grad.
    rewrite foldl_set_requires_grad, bool_decide_eq_true_2, Hst by done. done.
  - intros. rewrite foldl_set_requires_grad, bool_decide_eq_false_2 by done. done.
Qed.

Lemma set_backbone_twice b b' (w : world (O := O)) :
  (set_backbone_requires_grad b ≫= fun _ => set_backbone_requires_grad b') w
  = set_backbone_requires_grad b' w.
Proof.
  unfold set_backbone_requires_grad, modify, mbind, stex_bind; simpl.
  f_equal. f_equal. apply map_eq. intros p.
  rewrite !foldl_set_requires_grad.
  destruct (bool_decide _); [|done].
  destruct (heap w !! p); done.
Qed.

(** Freezing and unfreezing do not undo each other: of two calls in
    a row the second one alone decides, so unfreezing after freezing makes
    trainable also what was frozen before, and each method is
    idempotent. *)
Theorem freeze_unfreeze_last_wins (w : world (O := O)) :
  (freeze_weights ≫= fun _ => unfreeze_weights) w = unfreeze_weights w ∧
  (unfreeze_weights ≫= fun _ => freeze_weights) w = freeze_weights w ∧
  (freeze_weights ≫= fun _ => freeze_weights) w = freeze_weights w ∧
  (unfreeze_weights ≫= fun _ => unfreeze_weights) w = unfreeze_weights w.
Proof. repeat split; apply set_backbone_twice. Qed.

End ResNetDeepFashion.
End LifeCycleFacts.

(** ** The two steps *)

Module StepFacts.
Import Torch Model Steps PyFacts ModelFacts.
#[local] Open Scope list_scope.




(** A target without dimensions has no length. *)
Lemma accuracy_value_scalar (logits : tensor Q) (targets : tensor Z) :
  shape targets = [] → ∃ e, accuracy_value logits targets = Raise e.
Proof.
  intros Hsh. unfold accuracy_value, match_rate, len. simpl. rewrite Hsh.
  destruct (argmax_dim1 _); simpl; [|eauto].
  destruct (eq _ _); simpl; eauto.
Qed.

Lemma broadcast_dims_ones (s : list nat) :
  broadcast_dims s (replicate (length s) 1) = Some s.
Proof.
  induction s as [|a s IH]; simpl; [done|]. rewrite IH.
  destruct (a =? 1) eqn:Ha; [by apply Nat.eqb_eq in Ha as ->|done].
Qed.

(** Every tensor can be compared with one without dimensions. *)
Lemma eq_scalar (a b : tensor Z) : shape b = [] → ∃ hits, eq a b = Ok hits.
Proof.
  intros Hb. unfold eq, broadcast_shapes, pad_shape. rewrite Hb. simpl.
  rewrite Nat.max_0_r, Nat.sub_diag, Nat.sub_0_r, app_nil_r. simpl.
  rewrite broadcast_dims_ones. eauto.
Qed.

Lemma squeeze_all_ones (sh : list nat) :
  Forall (fun d => d = 1) sh → filter (fun d => d ≠ 1) sh = [].
Proof.
  induction 1 as [|d sh Hd _ IH]; [done|].
  rewrite filter_cons_False by (intros ?; done). done.
Qed.

Section ResNetDeepFashion.
Context {O : Type} `{!Kernels O}.
Variable BACKBONES : Registry.t (result Net).
Variable CLS_HEADS : Registry.t (Builder.ctor Head).

Lemma forward_run x targets (w : world (O := O)) :
  forward x targets w
  = (w, forward_value (self w) (heap w) (grad_enabled w) x targets).
Proof.
  unfold forward, forward_value, no_grad, run, lift, get, mbind, stex_bind, mret,
    stex_ret; simpl.
  rewrite world_eta.
  destruct (net_forward _ _ _ _) as [out|]; simpl; [|done].
  destruct (cls_head (self w)) as [head|]; simpl; [|done].
  destruct (head_forward _ _ _ _) as [[preds emb]|]; simpl; [|done].
  destruct targets as [t|]; simpl; [|done].
  destruct (cross_entropy _ _ _); done.
Qed.

(** [training_step] up to the first call of the optimizer. *)
Lemma training_step_run x targets (w : world (O := O)) :
  training_step x targets w
  = match forward_value (self w) (heap w) (grad_enabled w) x
            (Some (squeeze_targets targets)) with
    | Raise e => (w, Raise e)
    | Ok (logits, _, loss) =>
        match accuracy_value logits (squeeze_targets targets) with
        | Raise e => (w, Raise e)
        | Ok train_accuracy =>
            (_ ← optimizer_call "zero_grad" zero_grad;
             _ ← loss_backward loss;
             _ ← optimizer_call "step" step;
             train_loss ← lift (match loss with
                                | Some l => item l
                                | None => Raise (AttributeError "item")
                                end);
             mret ({[ "train_acc" := train_accuracy;
                      "train_loss" := Finite train_loss ]} : gmap string pyfloat)) w
        end
    end.
Proof.
  unfold training_step. unfold mbind at 1, stex_bind at 1. rewrite forward_run.
  destruct (forward_value _ _ _ _ _) as [[[logits emb] loss]|]; [|done].
  unfold accuracy_value.
  unfold mbind at 1, stex_bind at 1, lift at 1.
  destruct (argmax_dim1 _) as [predictions|]; simpl; [|done].
  unfold mbind at 1, stex_bind at 1, lift at 1.
  destruct (match_rate _ _); done.
Qed.

Lemma validation_step_run x_val targets_val (w : world (O := O)) :
  validation_step x_val targets_val w
  = (w, validation_value (self w) (heap w) x_val targets_val).
Proof.
  unfold validation_step, no_grad, validation_value.
  unfold mbind at 1, stex_bind at 1. rewrite forward_run. simpl.
  destruct (forward_value _ _ _ _ _) as [[[logits emb] loss]|]; simpl;
    [|by rewrite world_eta].
  unfold accuracy_value, lift, mbind, stex_bind, mret, stex_ret; simpl.
  destruct (match loss with Some _ => _ | None => _ end); simpl;
    [|by rewrite world_eta].
  destruct (argmax_dim1 _); simpl; [|by rewrite world_eta].
  destruct (match_rate _ _); simpl; by rewrite world_eta.
Qed.


(** What a successful construction did. *)
Lemma init_Ok (kwargs : gmap string value) (self : ResNetDeepFashion (O := O)) :
  __init__ BACKBONES CLS_HEADS kwargs = Ok self →
  ∃ name net final W ty (config : gmap string value) make head,
    kwargs !! "backbone" = Some (VStr name) ∧
    Registry.lookup BACKBONES name = Some (Ok net) ∧
    last (children net) = Some final ∧
    in_features (layer_module final) = Some W ∧
    kwargs !! "cls_head_type" = Some (VStr ty) ∧
    kwargs !! "cls_head_config" = Some (VDict config) ∧
    Registry.lookup CLS_HEADS ty = Some make ∧
    make (<["fan_in" := W]> config) = Ok head ∧
    self = Self (VStr ty) (Sequential (removelast (children net))) (Some head) None
                (VDict (<["fan_in" := W]> config)).
Proof.
  unfold __init__, dict_get.
  destruct (kwargs !! "cls_head_type") as [ty|]; simpl; [|done].
  destruct (kwargs !! "backbone") as [name|]; simpl; [|done].
  unfold Registry.getitem.
  destruct name as [| | | |name| | |]; simpl; try done.
  destruct (Registry.lookup BACKBONES name) as [[net|]|] eqn:Hnet; simpl; try done.
  destruct (kwargs !! "cls_head_config") as [config|]; simpl; [|done].
  destruct (_prepare_model _ _) as [self' [[]|]] eqn:Hprep; [|done].
  intros [= ->].
  apply prepare_model_Ok in Hprep
    as (final & W & ty' & config' & make & head & Hl & HW & Hty & Hcfg & Hmk & Hhd & ->).
  simpl in *. subst. eauto 20.
Qed.

(** The conditions under which the constructor returns, and what it
    returns then. *)
Lemma init_returns (kwargs : gmap string value) name net final W ty
    (config : gmap string value) make head :
  kwargs !! "backbone" = Some (VStr name) →
  Registry.lookup BACKBONES name = Some (Ok net) →
  last (children net) = Some final →
  in_features (layer_module final) = Some W →
  kwargs !! "cls_head_type" = Some (VStr ty) →
  kwargs !! "cls_head_config" = Some (VDict config) →
  Registry.lookup CLS_HEADS ty = Some make →
  make (<["fan_in" := W]> config) = Ok head →
  __init__ (O := O) BACKBONES CLS_HEADS kwargs
  = Ok (Self (VStr ty) (Sequential (removelast (children net))) (Some head) None
          (VDict (<["fan_in" := W]> config))).
Proof.
  intros Hname Hnet Hlast HW Hty Hcfg Hmake Hhead.
  unfold __init__, dict_get, Registry.getitem. rewrite Hty, Hname. simpl.
  rewrite Hnet, Hcfg. simpl.
  unfold _prepare_model, get, put, lift, mbind, stex_bind. simpl.
  rewrite Hlast, HW. simpl. unfold Registry.getitem. rewrite Hmake, Hhead. done.
Qed.

(** A model as the constructor returns it cannot take a training
    step: no optimizer is attached, so the step raises, at the latest with
    the [AttributeError] of the first call of the optimizer, and the model
    and the parameters are as before. *)
Theorem training_step_needs_optimizer (kwargs : gmap string value)
    (model : ResNetDeepFashion (O := O)) h g x targets :
  __init__ BACKBONES CLS_HEADS kwargs = Ok model →
  optimizer model = None ∧
  (training_step x targets (World model h g)).1 = World model h g ∧
  (∀ d, (training_step x targets (World model h g)).2 ≠ Ok d) ∧
  (∀ logits emb loss predictions acc,
     (forward x (Some (squeeze_targets targets)) (World model h g)).2
     = Ok (logits, emb, loss) →
     argmax_dim1 (to "cpu" logits) = Ok predictions →
     match_rate predictions (to "cpu" (squeeze_targets targets)) = Ok acc →
     (training_step x targets (World model h g)).2
     = Raise (AttributeError "zero_grad")).
Proof.
  intros (name & net & final & W & ty & config & make & head & _ & _ & _ & _ & _ & _
          & _ & _ & ->)%init_Ok.
  split; [done|].
  rewrite training_step_run, forward_run. simpl.
  destruct (forward_value _ _ _ _ _) as [[[logits emb] loss]|];
    [|repeat split; simpl; intros; congruence].
  unfold accuracy_value.
  destruct (argmax_dim1 _) as [predictions|] eqn:Harg; simpl;
    [|repeat split; simpl; intros; congruence].
  destruct (match_rate _ _) as [acc|] eqn:Hacc; simpl;
    [|repeat split; simpl; intros; congruence].
  repeat split; simpl; intros; congruence.
Qed.

Lemma same_structure_refl (w : world (O := O)) : same_structure w w.
Proof. by repeat split. Qed.

Lemma same_structure_trans (w1 w2 w3 : world (O := O)) :
  same_structure w1 w2 → same_structure w2 w3 → same_structure w1 w3.
Proof.
  intros (?&?&?&?&?) (?&?&?&?&?). repeat split; congruence.
Qed.

Lemma maintains_bind {A B} (m : stex (world (O := O)) A) (k : A → stex world B) :
  maintains same_structure m → (∀ a, maintains same_structure (k a)) →
  maintains same_structure (m ≫= k).
Proof.
  intros Hm Hk w. unfold mbind, stex_bind. specialize (Hm w).
  destruct (m w) as [w1 [a|e]]; simpl in *; [|done].
  eapply same_structure_trans; [exact Hm|apply Hk].
Qed.

Lemma maintains_preserves {A} (m : stex (world (O := O)) A) :
  preserves m → maintains same_structure m.
Proof. intros Hm w. rewrite Hm. apply same_structure_refl. Qed.

Lemma maintains_optimizer_call method f :
  maintains same_structure (optimizer_call (O := O) method f).
Proof.
  intros w. unfold optimizer_call.
  destruct (optimizer (self w)); [|apply same_structure_refl].
  destruct (f _) as [[o' h'] r]. by repeat split.
Qed.

Lemma maintains_loss_backward loss :
  maintains same_structure (loss_backward (O := O) loss).
Proof.
  intros w. unfold loss_backward.
  destruct loss; [|apply same_structure_refl].
  destruct (backward _ _) as [h' r]. by repeat split.
Qed.

(** Whether it returns or raises, [training_step] leaves the
    backbone, the head, the head's type and configuration and the gradient
    mode of the model as they were: what it writes is the parameter store
    and the optimizer. *)
Theorem training_step_structure x targets (w : world (O := O)) :
  same_structure w (training_step x targets w).1.
Proof.
  revert w. change (maintains same_structure (training_step (O := O) x targets)).
  unfold training_step.
  apply maintains_bind; [apply maintains_preserves, forward_preserves|].
  intros [[logits emb] loss].
  apply maintains_bind; [apply maintains_preserves, preserves_lift|]. intros predictions.
  apply maintains_bind; [apply maintains_preserves, preserves_lift|]. intros acc.
  apply maintains_bind; [apply maintains_optimizer_call|]. intros _.
  apply maintains_bind; [apply maintains_loss_backward|]. intros _.
  apply maintains_bind; [apply maintains_optimizer_call|]. intros _.
  apply maintains_bind; [apply maintains_preserves, preserves_lift|]. intros l.
  apply maintains_preserves, preserves_ret.
Qed.

(** Where the head and the loss compute the same values with and
    without gradient recording, a batch on which [training_step] returns is
    one on which [validation_step] returns too, with the accuracy and the
    loss the training step reported: both are measured before the
    parameters are updated. *)
Theorem validation_agrees_with_training (w w' : world (O := O)) x targets d :
  (∀ head out, cls_head (self w) = Some head →
     head_forward head false (heap w) out
     = head_forward head (grad_enabled w) (heap w) out) →
  (∀ preds t, cross_entropy false preds t = cross_entropy (grad_enabled w) preds t) →
  training_step x targets w = (w', Ok d) →
  ∃ d', validation_step x targets w = (w, Ok d') ∧
        d' !! "val_acc" = d !! "train_acc" ∧
        d' !! "val_loss" = d !! "train_loss" ∧
        dom d' = {[ "val_acc"; "val_loss" ]}.
Proof.
  intros Hhead Hloss. rewrite training_step_run, validation_step_run.
  unfold validation_value.
  assert (forward_value (self w) (heap w) false x (Some (squeeze_targets targets))
          = forward_value (self w) (heap w) (grad_enabled w) x
              (Some (squeeze_targets targets))) as ->.
  { unfold forward_value. destruct (net_forward _ _ _ _) as [out|]; simpl; [|done].
    destruct (cls_head (self w)) as [head|] eqn:Hh; simpl; [|done].
    rewrite (Hhead head out eq_refl).
    destruct (head_forward _ _ _ _) as [[preds emb]|]; simpl; [|done].
    by rewrite Hloss. }
  destruct (forward_value _ _ _ _ _) as [[[logits emb] loss]|]; simpl; [|done].
  destruct (accuracy_value _ _) as [acc|]; [|done].
  intros Hrest.
  stex_inv Hrest as [] w1 H1. stex_inv Hrest as [] w2 H2.
  stex_inv Hrest as [] w3 H3. stex_inv Hrest as l w4 H4.
  apply lift_Ok in H4 as [-> Hitem]. injection Hrest as _ <-.
  apply loss_backward_Ok in H2 as (l0 & h' & -> & _ & _).
  unfold item in *. simpl. rewrite Hitem. simpl.
  eexists. split; [reflexivity|].
  repeat split.
Qed.

(** Labels given as a column for a batch of one sample, of shape
    (1, 1), or with any shape of rank above 1 made of ones, are squeezed
    to a tensor without dimensions; neither step returns on them, the
    state is as before, and where the forward pass and the arg-max succeed
    the exception is the [TypeError] of [len]. *)
Theorem single_sample_column_labels (w : world (O := O)) x targets :
  1 < ndim targets →
  Forall (fun d => d = 1) (shape targets) →
  shape (squeeze_targets targets) = [] ∧
  (training_step x targets w).1 = w ∧
  (∀ d, (training_step x targets w).2 ≠ Ok d) ∧
  (validation_step x targets w).1 = w ∧
  (∀ d, (validation_step x targets w).2 ≠ Ok d) ∧
  (∀ logits emb loss predictions,
     (forward x (Some (squeeze_targets targets)) w).2 = Ok (logits, emb, loss) →
     argmax_dim1 (to "cpu" logits) = Ok predictions →
     (training_step x targets w).2 = Raise (TypeError "len() of a 0-d tensor")).
Proof.
  intros Hrank Hones.
  assert (shape (squeeze_targets targets) = []) as Hsh.
  { unfold squeeze_targets. apply Nat.ltb_lt in Hrank as ->. simpl.
    by apply squeeze_all_ones. }
  split; [done|].
  assert (∀ g logits, ∃ e,
            accuracy_value logits (squeeze_targets targets) = Raise e) as Hacc
    by (intros; by apply accuracy_value_scalar).
  rewrite validation_step_run, training_step_run, forward_run. unfold validation_value.
  split; [|split; [|split; [done|split]]].
  - destruct (forward_value _ _ _ _ _) as [[[logits emb] loss]|]; [|done].
    by destruct (accuracy_value_scalar logits _ Hsh) as [e ->].
  - intros d. destruct (forward_value _ _ _ _ _) as [[[logits emb] loss]|]; [|done].
    by destruct (accuracy_value_scalar logits _ Hsh) as [e ->].
  - intros d. simpl.
    destruct (forward_value _ _ _ _ _) as [[[logits emb] loss]|]; [|done]. simpl.
    destruct (match loss with Some _ => _ | None => _ end); [|done]. simpl.
    by destruct (accuracy_value_scalar logits _ Hsh) as [e ->].
  - intros logits emb loss predictions. simpl. intros -> Harg.
    unfold accuracy_value. rewrite Harg. simpl. unfold match_rate, len.
    destruct (eq_scalar predictions (to "cpu" (squeeze_targets targets)) Hsh)
      as [hits ->].
    simpl. by rewrite Hsh.
Qed.


(** The constructor needs a backbone with children whose last
    child has the attribute [in_features]: on a backbone without children
    it raises [IndexError], on one whose last child has no such attribute,
    a container for instance, it raises [AttributeError]; both before the
    head registry is consulted, whatever the head type and configuration
    are. *)
Theorem init_backbone_errors (kwargs : gmap string value) ty name net config :
  kwargs !! "cls_head_type" = Some ty →
  kwargs !! "backbone" = Some (VStr name) →
  Registry.lookup BACKBONES name = Some (Ok net) →
  kwargs !! "cls_head_config" = Some config →
  (children net = [] →
   __init__ (O := O) BACKBONES CLS_HEADS kwargs
   = Raise (IndexError "list index out of range")) ∧
  (∀ final, last (children net) = Some final →
            in_features (layer_module final) = None →
   __init__ (O := O) BACKBONES CLS_HEADS kwargs
   = Raise (AttributeError "in_features")).
Proof.
  intros Hty Hname Hnet Hcfg.
  unfold __init__, dict_get, Registry.getitem. rewrite Hty, Hname. simpl.
  rewrite Hnet, Hcfg. simpl.
  unfold _prepare_model, get, lift, mbind, stex_bind. simpl.
  split.
  - intros ->. done.
  - intros final -> ->. done.
Qed.

(** Once an optimizer is attached with [configure_optimizer], the
    training step returns whenever its collaborators do: the forward pass
    with a loss, the arg-max, the comparison with the targets, the three
    calls of the optimizer and of back-propagation, and the reading of the
    loss.  It returns the accuracy and the loss measured before the update
    and leaves the updated store and optimizer behind. *)
Theorem configured_training_step_returns (w : world (O := O)) o x targets
    logits emb loss predictions acc o1 h1 h2 o2 h3 l :
  forward x (Some (squeeze_targets targets)) w = (w, Ok (logits, emb, Some loss)) →
  argmax_dim1 (to "cpu" logits) = Ok predictions →
  match_rate predictions (to "cpu" (squeeze_targets targets)) = Ok acc →
  zero_grad (o, heap w) = ((o1, h1), Ok tt) →
  backward loss h1 = (h2, Ok tt) →
  step (o1, h2) = ((o2, h3), Ok tt) →
  item loss = Ok l →
  training_step x targets (configure_optimizer o w).1
  = (World (Self (cls_head_type (self w)) (backbone (self w)) (cls_head (self w))
                 (Some o2) (cls_head_config (self w)))
           h3 (grad_enabled w),
     Ok {[ "train_acc" := acc; "train_loss" := Finite l ]}).
Proof.
  intros Hf Harg Hacc Hzero Hback Hstep Hitem.
  rewrite forward_run in Hf. injection Hf as Hf.
  rewrite training_step_run. simpl.
  change (forward_value _ (heap w) (grad_enabled w) x (Some (squeeze_targets targets)))
    with (forward_value (self w) (heap w) (grad_enabled w) x
            (Some (squeeze_targets targets))).
  rewrite Hf. unfold accuracy_value. rewrite Harg. simpl. rewrite Hacc.
  unfold mbind, stex_bind, optimizer_call, loss_backward, lift, mret, stex_ret. simpl.
  rewrite Hzero. simpl. rewrite Hback. simpl. rewrite Hstep. simpl. by rewrite Hitem.
Qed.

End ResNetDeepFashion.



Lemma training_step_needs_optimizer_witness :
  optimizer Examples.model0 = None ∧
  (training_step Examples.x0 Examples.labels0 Instances.world_fresh).1
  = Instances.world_fresh ∧
  (∀ d, (training_step Examples.x0 Examples.labels0 Instances.world_fresh).2 ≠ Ok d) ∧
  (∀ logits emb loss predictions acc,
     (forward Examples.x0 (Some (squeeze_targets Examples.labels0))
        Instances.world_fresh).2 = Ok (logits, emb, loss) →
     argmax_dim1 (to "cpu" logits) = Ok predictions →
     match_rate predictions (to "cpu" (squeeze_targets Examples.labels0)) = Ok acc →
     (training_step Examples.x0 Examples.labels0 Instances.world_fresh).2
     = Raise (AttributeError "zero_grad")).
Proof.
  apply (training_step_needs_optimizer Examples.BACKBONES Examples.CLS_HEADS
           Examples.model_cfg Examples.model0 Examples.heap0 true
           Examples.x0 Examples.labels0).
  vm_compute. reflexivity.
Defined.

Lemma validation_agrees_with_training_witness :
  ∃ d', validation_step Examples.x0 Examples.labels0 Examples.world0
        = (Examples.world0, Ok d') ∧
        d' !! "val_acc" = Some (Finite (1 # 2)) ∧
        d' !! "val_loss" = Some (Finite 1) ∧
        dom d' = {[ "val_acc"; "val_loss" ]}.
Proof.
  destruct (validation_agrees_with_training Examples.world0
              (training_step Examples.x0 Examples.labels0 Examples.world0).1
              Examples.x0 Examples.labels0
              {[ "train_acc" := Finite (1 # 2); "train_loss" := Finite 1 ]})
    as (d' & Hv & Hacc & Hloss & Hdom).
  - intros head out H. vm_compute in H. injection H as <-. reflexivity.
  - reflexivity.
  - vm_compute. reflexivity.
  - exists d'. repeat split; assumption.
Defined.

Lemma single_sample_column_labels_witness :
  shape (squeeze_targets Instances.labels_single) = [] ∧
  (training_step Instances.x_single Instances.labels_single Examples.world0).2
  = Raise (TypeError "len() of a 0-d tensor").
Proof.
  destruct (single_sample_column_labels Examples.world0 Instances.x_single
              Instances.labels_single) as (Hsh & _ & _ & _ & _ & Herr).
  - unfold ndim, Instances.labels_single. simpl. lia.
  - repeat constructor.
  - split; [exact Hsh|].
    eapply Herr; vm_compute; reflexivity.
Defined.


Lemma init_backbone_errors_witness :
  __init__ (O := nat) Instances.BACKBONES Examples.CLS_HEADS
    {[ "backbone" := VStr "childless"; "cls_head_type" := VStr "simple";
       "cls_head_config" := VDict ∅ ]}
  = Raise (IndexError "list index out of range") ∧
  __init__ (O := nat) Instances.BACKBONES Examples.CLS_HEADS
    {[ "backbone" := VStr "container_last"; "cls_head_type" := VStr "simple";
       "cls_head_config" := VDict ∅ ]}
  = Raise (AttributeError "in_features").
Proof.
  split.
  - refine (proj1 (init_backbone_errors (O := nat) Instances.BACKBONES
                     Examples.CLS_HEADS _ (VStr "simple") "childless" _ (VDict ∅)
                     _ _ _ _) _); reflexivity.
  - refine (proj2 (init_backbone_errors (O := nat) Instances.BACKBONES
                     Examples.CLS_HEADS _ (VStr "simple") "container_last" _ (VDict ∅)
                     _ _ _ _) Examples.features _ _); reflexivity.
Defined.

Lemma configured_training_step_returns_witness :
  (training_step Examples.x0 Examples.labels0
     (configure_optimizer 0 Instances.world_fresh).1).2
  = Ok {[ "train_acc" := Finite (1 # 2); "train_loss" := Finite 1 ]}.
Proof.
  erewrite (configured_training_step_returns Instances.world_fresh 0
              Examples.x0 Examples.labels0);
    [reflexivity|vm_compute; reflexivity..].
Defined.

End StepFacts.

(** ** The model with the heads of [model.py] *)

Module HeadFacts.
Import Torch Model Steps PyFacts ModelFacts StepFacts.
#[local] Open Scope list_scope.

Section heads.
Context {O : Type} `{!Kernels O}.
Variable BACKBONES : Registry.t (result Net).
Variable Linear : value → value → result Layer.
Variable ReLU : Layer.
Variable BatchNorm2d : value → result Layer.
Variable config_descriptor : value → value → value → result Head.

(** Neither step returns when the logits have fewer than two
    dimensions: the arg-max along dimension 1 has nothing to reduce. *)
Lemma low_rank_logits (w : world (O := O)) x targets :
  (∀ g logits emb loss,
     forward_value (self w) (heap w) g x (Some (squeeze_targets targets))
     = Ok (logits, emb, loss) → ndim logits < 2) →
  (training_step x targets w).1 = w ∧
  (∀ d, (training_step x targets w).2 ≠ Ok d) ∧
  (validation_step x targets w).1 = w ∧
  (∀ d, (validation_step x targets w).2 ≠ Ok d) ∧
  (∀ r, (forward x (Some (squeeze_targets targets)) w).2 = Ok r →
        (training_step x targets w).2 = Raise (IndexError "dimension out of range")).
Proof.
  intros Hrank.
  assert (∀ logits : tensor Q, ndim logits < 2 →
            accuracy_value logits (squeeze_targets targets)
            = Raise (IndexError "dimension out of range")) as Hacc.
  { intros [[|d0 [|d1 sh]] dt dev]; unfold ndim, accuracy_value, argmax_dim1; simpl;
      try done. lia. }
  rewrite validation_step_run, training_step_run, forward_run. unfold validation_value.
  split; [|split; [|split; [done|split]]].
  - destruct (forward_value _ _ _ _ _) as [[[logits emb] loss]|] eqn:Hf; [|done].
    by rewrite Hacc by eauto.
  - intros d. destruct (forward_value _ _ _ _ _) as [[[logits emb] loss]|] eqn:Hf;
      [|done].
    by rewrite Hacc by eauto.
  - intros d. simpl.
    destruct (forward_value _ _ _ _ _) as [[[logits emb] loss]|] eqn:Hf; [|done]. simpl.
    destruct (match loss with Some _ => _ | None => _ end); [|done]. simpl.
    by rewrite Hacc by eauto.
  - intros [[logits emb] loss]. simpl. intros Hf. rewrite Hf.
    by rewrite Hacc by eauto.
Qed.

(** With the head registered as 'simple', a batch of one sample
    cannot be stepped on: features of more than two dimensions of which at
    most one is not of extent 1, as a backbone hands them on for a single
    image, are squeezed to at most one dimension, the linear layer keeps
    the rank, and the arg-max along dimension 1 raises.  Neither step
    returns, and the state is as before. *)
Theorem simple_head_single_sample (w : world (O := O)) x targets
    (head : Heads.ClassificationHead.t) out :
  cls_head (self w) = Some (Heads.ClassificationHead.head head) →
  net_forward (backbone (self w)) false (heap w) x = Ok out →
  2 < ndim out →
  ndim (squeeze out) < 2 →
  (∀ g h a b, layer_forward (Heads.ClassificationHead.cls_head head) g h a = Ok b →
              ndim b = ndim a) →
  (training_step x targets w).1 = w ∧
  (∀ d, (training_step x targets w).2 ≠ Ok d) ∧
  (validation_step x targets w).1 = w ∧
  (∀ d, (validation_step x targets w).2 ≠ Ok d) ∧
  (∀ r, (forward x (Some (squeeze_targets targets)) w).2 = Ok r →
        (training_step x targets w).2 = Raise (IndexError "dimension out of range")).
Proof.
  intros Hhead Hout Hrank Hsq Hlin. apply low_rank_logits.
  intros g logits emb loss. unfold forward_value. rewrite Hout, Hhead. simpl.
  unfold Heads.ClassificationHead.forward.
  apply Nat.ltb_lt in Hrank as ->.
  destruct (layer_forward _ _ _ _) as [y|] eqn:Hy; simpl; [|done].
  apply Hlin in Hy.
  destruct (cross_entropy _ _ _); simpl; [|done].
  intros [= <- _ _]. lia.
Qed.

(** With the head registered as 'linear', which squeezes its input
    whatever its rank, the same holds for every batch of one sample, also
    one of two dimensions. *)
Theorem linear_head_single_sample (w : world (O := O)) x targets
    (head : Heads.LinearClassificationHead.t) out :
  cls_head (self w) = Some (Heads.LinearClassificationHead.head head) →
  net_forward (backbone (self w)) false (heap w) x = Ok out →
  ndim (squeeze out) < 2 →
  (∀ g h a b, layer_forward (Heads.LinearClassificationHead.embedding head) g h a = Ok b →
              ndim b = ndim a) →
  (∀ g h a b, layer_forward (Heads.LinearClassificationHead.cls_head head) g h a = Ok b →
              ndim b = ndim a) →
  (training_step x targets w).1 = w ∧
  (∀ d, (training_step x targets w).2 ≠ Ok d) ∧
  (validation_step x targets w).1 = w ∧
  (∀ d, (validation_step x targets w).2 ≠ Ok d) ∧
  (∀ r, (forward x (Some (squeeze_targets targets)) w).2 = Ok r →
        (training_step x targets w).2 = Raise (IndexError "dimension out of range")).
Proof.
  intros Hhead Hout Hsq Hemb Hlin. apply low_rank_logits.
  intros g logits emb loss. unfold forward_value. rewrite Hout, Hhead. simpl.
  unfold Heads.LinearClassificationHead.forward.
  destruct (layer_forward _ _ _ _) as [e|] eqn:He; simpl; [|done].
  destruct (layer_forward _ _ _ e) as [y|] eqn:Hy; simpl; [|done].
  apply Hemb in He. apply Hlin in Hy.
  destruct (cross_entropy _ _ _); simpl; [|done].
  intros [= <- _ _]. lia.
Qed.

(** With the registry of [model.py] the constructor returns a
    model whose head is built for the width of the backbone's last child,
    whatever 'fan_in' the configuration gave: the first layer of each of
    the three heads is constructed with that width, and the head
    configuration of the model holds it under 'fan_in'. *)
Theorem init_head_width (kwargs : gmap string value) name net final W ty
    (config : gmap string value) :
  kwargs !! "backbone" = Some (VStr name) →
  Registry.lookup BACKBONES name = Some (Ok net) →
  last (children net) = Some final →
  in_features (layer_module final) = Some W →
  kwargs !! "cls_head_type" = Some (VStr ty) →
  kwargs !! "cls_head_config" = Some (VDict config) →
  (ty = "simple" → ∀ n layer,
     config !! "n_classes" = Some n →
     Linear W n = Ok layer →
     __init__ (O := O) BACKBONES
       (Heads.CLS_HEADS Linear ReLU BatchNorm2d config_descriptor) kwargs
     = Ok (Self (VStr ty) (Sequential (removelast (children net)))
             (Some (Heads.ClassificationHead.head
                      (Heads.ClassificationHead.Self
                         (match config !! "embedding_sz" with
                          | Some v => if Heads.truthy v then Some v else None
                          | None => None
                          end) layer)))
             None (VDict (<["fan_in" := W]> config)))) ∧
  (ty = "linear" → ∀ e n embedding cls_head,
     config !! "embedding_sz" = Some e →
     config !! "n_classes" = Some n →
     Linear W e = Ok embedding →
     Linear e n = Ok cls_head →
     __init__ (O := O) BACKBONES
       (Heads.CLS_HEADS Linear ReLU BatchNorm2d config_descriptor) kwargs
     = Ok (Self (VStr ty) (Sequential (removelast (children net)))
             (Some (Heads.LinearClassificationHead.head
                      (Heads.LinearClassificationHead.Self embedding ReLU cls_head)))
             None (VDict (<["fan_in" := W]> config)))) ∧
  (ty = "cgd_head" → ∀ gd_config feat_dim n gd bn cls,
     config !! "gd_config" = Some gd_config →
     config !! "feat_dim" = Some feat_dim →
     config !! "n_classes" = Some n →
     config_descriptor W gd_config feat_dim = Ok gd →
     BatchNorm2d W = Ok bn →
     Linear W n = Ok cls →
     __init__ (O := O) BACKBONES
       (Heads.CLS_HEADS Linear ReLU BatchNorm2d config_descriptor) kwargs
     = Ok (Self (VStr ty) (Sequential (removelast (children net)))
             (Some (Heads.CombinedGlobalDescriptorClassHead.head
                      (Heads.CombinedGlobalDescriptorClassHead.Self gd bn cls)))
             None (VDict (<["fan_in" := W]> config)))).
Proof.
  intros Hname Hnet Hlast HW Hty Hcfg.
  split; [|split].
  - intros -> n layer Hn Hl.
    eapply init_returns; try eassumption; [reflexivity|].
    unfold Heads.ClassificationHead.new, Heads.ClassificationHead.__init__, dict_get.
    rewrite !lookup_insert_eq, !lookup_insert_ne by done. rewrite Hn. simpl.
    rewrite Hl. done.
  - intros -> e n l1 l2 He Hn Hl1 Hl2.
    eapply init_returns; try eassumption; [reflexivity|].
    unfold Heads.LinearClassificationHead.new, Heads.LinearClassificationHead.__init__,
      dict_get.
    rewrite !lookup_insert_eq, !lookup_insert_ne by done. rewrite He, Hn. simpl.
    rewrite Hl1. simpl. rewrite Hl2. done.
  - intros -> gdc fd n gd bn cls Hg Hf Hn Hgd Hbn Hcls.
    eapply init_returns; try eassumption; [reflexivity|].
    unfold Heads.CombinedGlobalDescriptorClassHead.new,
      Heads.CombinedGlobalDescriptorClassHead.__init__, dict_get.
    rewrite !lookup_insert_eq, !lookup_insert_ne by done. rewrite Hg, Hf, Hn. simpl.
    rewrite Hgd. simpl. rewrite Hbn. simpl. rewrite Hcls. done.
Qed.

End heads.

Lemma simple_head_single_sample_witness :
  (training_step Instances.features_single Instances.label_single
     Instances.world_simple).1 = Instances.world_simple ∧
  (training_step Instances.features_single Instances.label_single
     Instances.world_simple).2 = Raise (IndexError "dimension out of range").
Proof.
  destruct (simple_head_single_sample Instances.world_simple
              Instances.features_single Instances.label_single
              (Heads.ClassificationHead.Self None (Instances.linear_layer (VInt 3)))
              Instances.features_single)
    as (Hst & _ & _ & _ & Herr).
  - vm_compute. reflexivity.
  - vm_compute. reflexivity.
  - vm_compute. lia.
  - vm_compute. lia.
  - intros g h a b [= <-]. reflexivity.
  - split; [exact Hst|]. eapply Herr. vm_compute. reflexivity.
Defined.

Lemma linear_head_single_sample_witness :
  (training_step Instances.x_single Instances.label_single
     Instances.world_linear).1 = Instances.world_linear ∧
  (training_step Instances.x_single Instances.label_single
     Instances.world_linear).2 = Raise (IndexError "dimension out of range").
Proof.
  destruct (linear_head_single_sample Instances.world_linear
              Instances.x_single Instances.label_single
              (Heads.LinearClassificationHead.Self
                 (Instances.linear_layer (VInt 3)) Instances.ReLU
                 (Instances.linear_layer (VInt 8)))
              Instances.x_single)
    as (Hst & _ & _ & _ & Herr).
  - vm_compute. reflexivity.
  - vm_compute. reflexivity.
  - vm_compute. lia.
  - intros g h a b [= <-]. reflexivity.
  - intros g h a b [= <-]. reflexivity.
  - split; [exact Hst|]. eapply Herr. vm_compute. reflexivity.
Defined.

Lemma init_head_width_witness :
  __init__ (O := nat) Examples.BACKBONES Instances.CLS_HEADS Instances.cfg_simple
  = Ok (Self (VStr "simple") (Sequential [Examples.features])
          (Some (Heads.ClassificationHead.head
                   (Heads.ClassificationHead.Self None
                      (Instances.linear_layer (VInt 3)))))
          None (VDict {[ "n_classes" := VInt 10; "fan_in" := VInt 3 ]})).
Proof.
  refine (eq_trans
            (proj1 (init_head_width (O := nat) Examples.BACKBONES Instances.Linear
                      Instances.ReLU Instances.BatchNorm2d Instances.config_descriptor
                      Instances.cfg_simple "tiny" Examples.tiny_net Examples.fc (VInt 3)
                      "simple" {[ "n_classes" := VInt 10; "fan_in" := VInt 64 ]}
                      _ _ _ _ _ _)
               eq_refl (VInt 10) (Instances.linear_layer (VInt 3)) _ _) _);
    reflexivity.
Defined.

End HeadFacts.

(** ** The builders on whole configurations *)

Module PipelineFacts.
Import Builder PyFacts BuilderFacts.
#[local] Open Scope list_scope.

Lemma assoc_set_keys_present {A} (k : string) (a : A) (l : list (string * A)) :
  k ∈ l.*1 → (assoc_set k a l).*1 = l.*1.
Proof.
  induction l as [|[k' a'] l IH]; simpl; [by intros ?%elem_of_nil|].
  destruct (String.eqb_spec k k') as [->|Hne]; [done|].
  intros [?|Hin]%elem_of_cons; [done|]. simpl. f_equal. by apply IH.
Qed.

Lemma assoc_set_keys_fresh {A} (k : string) (a : A) (l : list (string * A)) :
  k ∉ l.*1 → (assoc_set k a l).*1 = l.*1 ++ [k].
Proof.
  induction l as [|[k' a'] l IH]; simpl; [done|].
  intros [Hne Hnotin]%not_elem_of_cons.
  destruct (String.eqb_spec k k') as [->|_]; [done|]. simpl. f_equal. by apply IH.
Qed.

Lemma str_contains_empty (s : string) : str_contains "" s = true.
Proof. by destruct s. Qed.

Section build_dataset.
Context {D : Type}.
Variable DATASETS : Registry.t (ctor D).
Variable prepare_data : result (value * value).

(** The loop keeps the keys of the caller's dict and appends the keys it
    deals with to the dict it builds, in the order of the loop. *)
Lemma for_each_build_one_keys keys : ∀ (f f' : @frame D),
  NoDup keys →
  (∀ key, key ∈ keys → key ∉ (ret f).*1) →
  for_each keys (build_one DATASETS prepare_data) f = (f', Ok tt) →
  (ret f').*1 = (ret f).*1 ++ keys ∧ (data f').*1 = (data f).*1.
Proof.
  induction keys as [|key keys IH]; intros f f' Hnd Hfresh H; simpl in H.
  - injection H as <-. by rewrite app_nil_r.
  - stex_inv H as [] f1 H1.
    apply NoDup_cons in Hnd as [Hnotin Hnd].
    apply build_one_Ok in H1
      as (entry & cfg & ty & make & s & a & d & He & _ & _ & _ & _ & _ & ->).
    apply IH in H as [Hret Hdata]; [|done|]; simpl in *.
    + rewrite Hret, Hdata, assoc_set_keys_fresh by (apply Hfresh; left).
      rewrite <- app_assoc. split; [done|].
      apply assoc_set_keys_present, assoc_is_Some. by rewrite He.
    + intros key' Hin. rewrite assoc_set_keys_fresh by (apply Hfresh; left).
      rewrite not_elem_of_app, not_elem_of_cons. repeat split.
      * apply Hfresh. by right.
      * by intros ->.
      * apply not_elem_of_nil.
Qed.

(** The dict [build_dataset] returns has the dataset keys of the
    configuration, in the order of the configuration, and nothing else;
    the caller's dict keeps its keys and their order, and its entries
    under other keys are as they were. *)
Theorem build_dataset_keys (data data' : list (string * value))
    (ret : list (string * D)) :
  NoDup data.*1 →
  build_dataset DATASETS prepare_data data = (data', Ok ret) →
  ret.*1 = dataset_keys data ∧
  data'.*1 = data.*1 ∧
  (∀ key, key ∉ dataset_keys data → assoc key data' = assoc key data).
Proof.
  intros Hnd H. unfold build_dataset in H.
  destruct (for_each _ _ _) as [[d1 s1 a1 r1] [[]|e]] eqn:Hloop; [|done].
  injection H as <- <-.
  assert (NoDup (dataset_keys data)) as Hndk by by apply NoDup_filter.
  pose proof Hloop as Hkeys.
  apply for_each_build_one_keys in Hkeys as [Hret Hdata];
    [|done|intros; apply not_elem_of_nil].
  apply for_each_build_one in Hloop as (_ & _ & Hout); [|done|by left].
  simpl in *. repeat split; [done..|].
  intros key Hkey. by apply Hout.
Qed.

(** One turn of the loop on a well-formed entry whose constructor
    returns. *)
Lemma build_one_returns key (f : @frame D) entry cfg ty make s a d :
  assoc key (data f) = Some (VDict entry) →
  entry !! "dataset_cfg" = Some (VDict cfg) →
  entry !! "type" = Some (VStr ty) →
  Registry.lookup DATASETS ty = Some make →
  (if String.eqb key "train_dataset" then prepare_data = Ok (s, a)
   else splits f = Some s ∧ annotations f = Some a) →
  make (<["garment_annotations" := a]> (<["split_info" := s]> cfg)) = Ok d →
  build_one DATASETS prepare_data key f
  = (Frame (assoc_set key
              (VDict (<["dataset_cfg" :=
                          VDict (<["garment_annotations" := a]>
                                   (<["split_info" := s]> cfg))]> entry))
              (data f))
           (Some s) (Some a) (assoc_set key d (ret f)), Ok tt).
Proof.
  intros He Hc Ht Hm Hp Hd.
  assert (ty ∈ Registry.keys DATASETS) as Hin
    by (apply registry_keys_lookup; by rewrite Hm).
  unfold build_one, assign_dataset_cfg, local, Registry.getitem.
  unfold mbind, stex_bind, get, put, modify, lift, mret, stex_ret. simpl.
  rewrite He. simpl. unfold dict_get. rewrite Hc, Ht. simpl.
  rewrite bool_decide_eq_true_2 by done. simpl.
  destruct (String.eqb key "train_dataset").
  - rewrite Hp. simpl.
    repeat progress
      (simpl; unfold dict_get;
       rewrite ?He, ?Hc, ?Hm, ?Hd, ?assoc_assoc_set, ?String.eqb_refl,
         ?lookup_insert_eq).
    by rewrite assoc_set_assoc_set, insert_insert_eq.
  - destruct Hp as [Hs Ha]. simpl.
    repeat progress
      (simpl; unfold dict_get;
       rewrite ?Hs, ?Ha, ?He, ?Hc, ?Hm, ?Hd, ?assoc_assoc_set, ?String.eqb_refl,
         ?lookup_insert_eq).
    by rewrite assoc_set_assoc_set, insert_insert_eq.
Qed.

(** The loop returns when every key it meets has a well-formed entry of
    a registered type whose constructor returns, and the prepared pair is
    at hand before it is read. *)
Lemma for_each_build_one_returns s a keys : ∀ f : @frame D,
  NoDup keys →
  prepare_data = Ok (s, a) →
  (∀ key, head keys = Some key →
          key = "train_dataset" ∨ (splits f = Some s ∧ annotations f = Some a)) →
  (∀ key, key ∈ keys →
     ∃ entry cfg ty make d,
       assoc key (data f) = Some (VDict entry) ∧
       entry !! "dataset_cfg" = Some (VDict cfg) ∧
       entry !! "type" = Some (VStr ty) ∧
       Registry.lookup DATASETS ty = Some make ∧
       make (<["garment_annotations" := a]> (<["split_info" := s]> cfg)) = Ok d) →
  ∃ f', for_each keys (build_one DATASETS prepare_data) f = (f', Ok tt).
Proof.
  induction keys as [|key keys IH]; intros f Hnd Hpd Hhead Hall; simpl; [eauto|].
  apply NoDup_cons in Hnd as [Hnotin Hnd].
  destruct (Hall key) as (entry & cfg & ty & make & d & He & Hc & Ht & Hm & Hd);
    [left|].
  unfold mbind, stex_bind.
  erewrite build_one_returns; try eassumption.
  - apply IH; [done..| |]; simpl.
    + intros key' _. by right.
    + intros key' Hin.
      destruct (Hall key') as (entry' & cfg' & ty' & make' & d' & He' & ?);
        [by right|].
      exists entry', cfg', ty', make', d'. split; [|done].
      rewrite assoc_assoc_set.
      destruct (String.eqb_spec key' key) as [->|_]; done.
  - destruct (String.eqb_spec key "train_dataset") as [->|Hne]; [done|].
    destruct (Hhead key eq_refl); done.
Qed.

(** [build_dataset] returns on a configuration in which the first
    dataset key, if there is one, is "train_dataset", [prepare_data]
    returns, and every dataset entry is a dict with a dict under
    'dataset_cfg' and the name of a registered type under 'type' whose
    constructor accepts the extended configuration. *)
Theorem build_dataset_returns (data : list (string * value)) s a :
  NoDup data.*1 →
  (∀ key, head (dataset_keys data) = Some key → key = "train_dataset") →
  prepare_data = Ok (s, a) →
  (∀ key, key ∈ dataset_keys data →
     ∃ entry cfg ty make d,
       assoc key data = Some (VDict entry) ∧
       entry !! "dataset_cfg" = Some (VDict cfg) ∧
       entry !! "type" = Some (VStr ty) ∧
       Registry.lookup DATASETS ty = Some make ∧
       make (<["garment_annotations" := a]> (<["split_info" := s]> cfg)) = Ok d) →
  ∃ data' ret, build_dataset DATASETS prepare_data data = (data', Ok ret).
Proof.
  intros Hnd Hhead Hpd Hall. unfold build_dataset.
  destruct (for_each_build_one_returns s a (dataset_keys data)
              (Frame data None None [])) as [[d1 s1 a1 r1] ->]; eauto.
  by apply NoDup_filter.
Qed.

(** The first dataset entry is checked before anything is
    prepared or written: without 'dataset_cfg' or without 'type' the call
    raises [KeyError], in this order; with a type that is not registered
    it raises the error that lists the registered names.  The caller's
    dict is as it was. *)
Theorem build_dataset_entry_errors (data : list (string * value)) key rest
    (entry : gmap string value) :
  dataset_keys data = key :: rest →
  assoc key data = Some (VDict entry) →
  (entry !! "dataset_cfg" = None →
   build_dataset DATASETS prepare_data data = (data, Raise (KeyError "dataset_cfg"))) ∧
  (∀ dataset_cfg, entry !! "dataset_cfg" = Some dataset_cfg →
   entry !! "type" = None →
   build_dataset DATASETS prepare_data data = (data, Raise (KeyError "type"))) ∧
  (∀ dataset_cfg ty, entry !! "dataset_cfg" = Some dataset_cfg →
   entry !! "type" = Some (VStr ty) →
   Registry.lookup DATASETS ty = None →
   build_dataset DATASETS prepare_data data
   = (data, Raise (UnsupportedType (VStr ty) (Registry.keys DATASETS)))).
Proof.
  intros Hkeys Hentry.
  unfold build_dataset. rewrite Hkeys. simpl.
  unfold mbind at 1, stex_bind. unfold build_one.
  unfold mbind, stex_bind, get, lift, local. simpl.
  rewrite Hentry. simpl. unfold dict_get.
  split; [|split].
  - by intros ->.
  - by intros c -> ->.
  - intros c ty -> -> Hnone. simpl.
    rewrite bool_decide_eq_false_2; [done|].
    rewrite registry_keys_lookup, Hnone. by intros [? ?].
Qed.

End build_dataset.

Lemma build_dataset_keys_witness :
  ((build_dataset Examples.DATASETS Examples.prepared_data Examples.data0).1).*1
  = ["train_dataset"; "val_dataset"; "batch_size"] ∧
  assoc "batch_size"
    (build_dataset Examples.DATASETS Examples.prepared_data Examples.data0).1
  = Some (VInt 32).
Proof.
  destruct (build_dataset Examples.DATASETS Examples.prepared_data Examples.data0)
    as [data' [ret|e]] eqn:H; [|by vm_compute in H].
  destruct (build_dataset_keys Examples.DATASETS Examples.prepared_data
              Examples.data0 data' ret) as (_ & Hkeys & Hother).
  - apply (bool_decide_unpack _). vm_compute. exact I.
  - exact H.
  - split; [exact Hkeys|]. simpl. rewrite (Hother "batch_size"); [reflexivity|].
    change (dataset_keys Examples.data0) with ["train_dataset"; "val_dataset"].
    intros Hin%list_elem_of_In. simpl in Hin. by destruct Hin as [|[|[]]].
Defined.

Lemma build_dataset_returns_witness :
  ∃ data' ret,
    build_dataset Examples.DATASETS Examples.prepared_data Examples.data0
    = (data', Ok ret).
Proof.
  apply (build_dataset_returns Examples.DATASETS Examples.prepared_data
           Examples.data0 (VObj 1) (VObj 2)).
  - apply (bool_decide_unpack _). vm_compute. exact I.
  - intros key [= <-]. reflexivity.
  - reflexivity.
  - change (dataset_keys Examples.data0) with ["train_dataset"; "val_dataset"].
    intros key Hkey%list_elem_of_In. simpl in Hkey.
    destruct Hkey as [<-|[<-|[]]]; by eexists _, _, "Recorded", _, _.
Defined.

Lemma build_dataset_entry_errors_witness :
  build_dataset Examples.DATASETS Examples.prepared_data Instances.data_unregistered
  = (Instances.data_unregistered,
     Raise (UnsupportedType (VStr "Missing") ["Recorded"])).
Proof.
  refine (proj2 (proj2 (build_dataset_entry_errors Examples.DATASETS
                          Examples.prepared_data Instances.data_unregistered
                          "train_dataset" []
                          {[ "type" := VStr "Missing"; "dataset_cfg" := VDict ∅ ]}
                          _ _)) (VDict ∅) "Missing" _ _ _); reflexivity.
Defined.

Section build_optimizer.
Context {O : Type}.
Variable OPTIMIZERS : list (string * ctor O).

Lemma filter_existsb_false {A} (f : A → bool) (l : list A) :
  existsb f l = false → List.filter f l = [].
Proof.
  induction l as [|x l IH]; simpl; [done|].
  destruct (f x); simpl; [done|]. exact IH.
Qed.

(** The loop over the modules for a selection that is a membership test
    [sel] on the module names. *)
Lemma select_modules_by params (sel : string → bool)
    (mods : list (string * Torch.Module)) :
  (∀ name, str_in name params = Ok (sel name)) →
  ∀ (trainable_params : list positive) (optimizer_cfg : gmap string value),
  for_each mods (fun '(name, module) => select_module params name module)
           (trainable_params, VDict optimizer_cfg)
  = ((trainable_params ++
        flat_map (fun '(_, module) => Torch.parameters module)
                 (List.filter (fun '(name, _) => sel name) mods),
      VDict (if existsb (fun '(name, _) => sel name) mods
             then <["params" := VNone]> optimizer_cfg
             else optimizer_cfg)),
     Ok tt).
Proof.
  intros Hsel.
  induction mods as [|[name module] mods IH]; intros tp d; simpl.
  - by rewrite app_nil_r.
  - unfold mbind at 1, stex_bind. unfold select_module at 1.
    unfold mbind at 1, stex_bind, lift. rewrite Hsel.
    destruct (sel name) eqn:Hname; simpl.
    + rewrite IH. rewrite insert_insert_eq. rewrite <- app_assoc.
      by destruct (existsb _ mods).
    + by rewrite IH.
Qed.

(** A list of names none of which is the path of a module of the
    model selects nothing and writes nothing: the caller's configuration
    is as it was, no parameter is collected, and unless 'optimizer_cfg'
    came with an entry 'params' of its own the call raises
    [KeyError('params')]. *)
Theorem build_optimizer_no_match h (cfg : gmap string value) model
    optimizer_type (optimizer_cfg : gmap string value) names :
  cfg !! "type" = Some optimizer_type →
  cfg !! "optimizer_cfg" = Some (VDict optimizer_cfg) →
  cfg !! "params" = Some (VList names) →
  (∀ name, VStr name ∈ names → name ∉ (Torch.named_modules model).*1) →
  (build_optimizer OPTIMIZERS h cfg model).1 = cfg ∧
  (collect_params h (VList names) model ([], VDict optimizer_cfg)).1
  = ([], VDict optimizer_cfg) ∧
  (optimizer_cfg !! "params" = None →
   (build_optimizer OPTIMIZERS h cfg model).2 = Raise (KeyError "params")).
Proof.
  intros Htype Hcfg Hparams Hnone.
  assert (existsb (fun '(name, _) => existsb (is_str name) names)
                  (Torch.named_modules model) = false) as Hex.
  { destruct (existsb _ (Torch.named_modules model)) eqn:Hex; [|done].
    apply existsb_exists in Hex as ([n m] & Hin & Hsel).
    apply existsb_is_str in Hsel. destruct (Hnone n Hsel).
    apply list_elem_of_fmap. exists (n, m). split; [done|].
    by apply list_elem_of_In. }
  assert (collect_params h (VList names) model ([], VDict optimizer_cfg)
          = (([], VDict optimizer_cfg), Ok tt)) as Hcollect.
  { unfold collect_params.
    rewrite select_modules_list, Hex, filter_existsb_false by done. done. }
  unfold build_optimizer, dict_get. rewrite Htype, Hcfg, Hparams, Hcollect. simpl.
  rewrite insert_id by done. repeat split.
  intros Hunset. unfold dict_get. by rewrite Hunset.
Qed.

(** When 'params' is a single string, module names are tested as
    substrings of it.  The root module, whose name is the empty string,
    always passes: every parameter of the model is collected, before those
    of any other module whose name occurs in the string, and 'params' of
    the optimizer configuration is set to [None]. *)
Theorem build_optimizer_string_params h (cfg : gmap string value) model
    optimizer_type (optimizer_cfg : gmap string value) s :
  cfg !! "type" = Some optimizer_type →
  cfg !! "optimizer_cfg" = Some (VDict optimizer_cfg) →
  cfg !! "params" = Some (VStr s) →
  (build_optimizer OPTIMIZERS h cfg model).1
  = <["optimizer_cfg" := VDict (<["params" := VNone]> optimizer_cfg)]> cfg ∧
  (collect_params h (VStr s) model ([], VDict optimizer_cfg)).1
  = (flat_map (fun '(_, module) => Torch.parameters module)
       (List.filter (fun '(name, _) => str_contains name s)
                    (Torch.named_modules model)),
     VDict (<["params" := VNone]> optimizer_cfg)) ∧
  ∃ more,
    (collect_params h (VStr s) model ([], VDict optimizer_cfg)).1.1
    = Torch.parameters model ++ more.
Proof.
  intros Htype Hcfg Hparams.
  assert (collect_params h (VStr s) model ([], VDict optimizer_cfg)
          = ((flat_map (fun '(_, module) => Torch.parameters module)
                (List.filter (fun '(name, _) => str_contains name s)
                             (Torch.named_modules model)),
              VDict (<["params" := VNone]> optimizer_cfg)), Ok tt)) as Hcollect.
  { unfold collect_params.
    rewrite (select_modules_by (VStr s) (fun name => str_contains name s)) by done.
    unfold Torch.named_modules. destruct model. simpl.
    by rewrite str_contains_empty. }
  split; [|split].
  - unfold build_optimizer, dict_get. by rewrite Htype, Hcfg, Hparams, Hcollect.
  - by rewrite Hcollect.
  - rewrite Hcollect. unfold Torch.named_modules. destruct model. simpl.
    rewrite str_contains_empty. simpl. eauto.
Qed.

End build_optimizer.

Lemma build_optimizer_no_match_witness :
  (build_optimizer Examples.OPTIMIZERS Examples.heap0 Instances.cfg_no_match
     (Model.module_of Examples.model0)).1 = Instances.cfg_no_match ∧
  (build_optimizer Examples.OPTIMIZERS Examples.heap0 Instances.cfg_no_match
     (Model.module_of Examples.model0)).2 = Raise (KeyError "params").
Proof.
  destruct (build_optimizer_no_match Examples.OPTIMIZERS Examples.heap0
              Instances.cfg_no_match (Model.module_of Examples.model0)
              (VStr "Adam") {[ "lr" := VFloat (1 # 1000) ]} [VStr "backbone.features"])
    as (Hcfg & _ & Hraise); try reflexivity.
  - intros name Hin%list_elem_of_In. simpl in Hin. destruct Hin as [[= <-]|[]].
    intros Hmod%list_elem_of_In. vm_compute in Hmod.
    by destruct Hmod as [|[|[|[|[|[]]]]]].
  - split; [exact Hcfg|]. apply Hraise. reflexivity.
Defined.

Lemma build_optimizer_string_params_witness :
  (build_optimizer Examples.OPTIMIZERS Examples.heap0 Instances.cfg_string
     (Model.module_of Examples.model0)).1
  = <["optimizer_cfg" :=
        VDict (<["params" := VNone]> {[ "lr" := VFloat (1 # 1000) ]})]>
      Instances.cfg_string ∧
  (collect_params Examples.heap0 (VStr "cls_head") (Model.module_of Examples.model0)
     ([], VDict {[ "lr" := VFloat (1 # 1000) ]})).1.1
  = [1; 4; 5; 4; 5]%positive.
Proof.
  destruct (build_optimizer_string_params Examples.OPTIMIZERS Examples.heap0
              Instances.cfg_string (Model.module_of Examples.model0)
              (VStr "Adam") {[ "lr" := VFloat (1 # 1000) ]} "cls_head")
    as (Hcfg & Hcollect & _); try reflexivity.
  split; [exact Hcfg|]. rewrite Hcollect. vm_compute. reflexivity.
Defined.

End PipelineFacts.

(** ** The parameters of the assembled model *)

Module ParameterFacts.
Import Torch Model PyFacts ModelFacts StepFacts BuilderFacts.
#[local] Open Scope list_scope.

(** The modules a traversal meets do not depend on the prefix their
    names are built from. *)
Lemma named_modules_from_modules :
  ∀ (m : Module) (pre pre' : string),
    (named_modules_from pre m).*2 = (named_modules_from pre' m).*2.
Proof.
  fix IH 1. intros [ps ms inf] pre pre'. simpl. f_equal.
  induction ms as [|[name c] ms IHms]; simpl; [done|].
  rewrite !fmap_app. f_equal; [apply IH|apply IHms].
Qed.

Lemma flat_map_named {B} (f : Module → list B) (l : list (string * Module)) :
  flat_map (fun '(_, c) => f c) l = flat_map f l.*2.
Proof.
  induction l as [|[n c] l IH]; simpl; [done|]. by rewrite IH.
Qed.

Lemma elem_of_unique (l : list positive) : ∀ seen p,
  p ∈ unique seen l ↔ p ∈ l ∧ p ∉ seen.
Proof.
  induction l as [|q l IH]; intros seen p; simpl.
  - split; [by intros ?%elem_of_nil|by intros [?%elem_of_nil _]].
  - destruct (bool_decide (q ∈ seen)) eqn:Hq.
    + apply bool_decide_eq_true_1 in Hq. rewrite IH, elem_of_cons.
      split; [tauto|]. intros [[->|?] ?]; done.
    + apply bool_decide_eq_false_1 in Hq.
      rewrite !elem_of_cons, IH, not_elem_of_cons.
      destruct (decide (p = q)) as [->|]; tauto.
Qed.

(** A parameter of a module, whatever name the module is met under. *)
Lemma elem_of_parameters_from (pre : string) (m : Module) (p : positive) :
  p ∈ flat_map (fun '(_, c) => (_parameters c).*2) (named_modules_from pre m)
  ↔ p ∈ parameters m.
Proof.
  unfold parameters, named_modules. rewrite elem_of_unique.
  rewrite !flat_map_named, (named_modules_from_modules m pre "").
  split; [split; [done|apply not_elem_of_nil]|tauto].
Qed.

(** The parameters of an [nn.Sequential] are those of its layers. *)
Lemma elem_of_parameters_Sequential (layers : list Layer) (p : positive) :
  p ∈ parameters (net_module (Sequential layers))
  ↔ ∃ l, l ∈ layers ∧ p ∈ parameters (layer_module l).
Proof.
  unfold parameters at 1, named_modules. rewrite elem_of_unique. simpl.
  assert (∀ n,
    p ∈ flat_map (fun '(_, c) => (_parameters c).*2)
          (flat_map (fun '(name, c) => named_modules_from name c)
             (prod_map id layer_module <$> imap (fun i l => (pretty (n + i), l)) layers))
    ↔ ∃ l, l ∈ layers ∧ p ∈ parameters (layer_module l)) as H.
  { induction layers as [|l layers IH]; intros n; simpl.
    - split; [by intros ?%elem_of_nil|by intros (? & ?%elem_of_nil & _)].
    - rewrite flat_map_app, elem_of_app, elem_of_parameters_from.
      rewrite (imap_ext _ (fun i l => (pretty (S n + i), l))), IH
        by (intros; simpl; f_equal; f_equal; lia).
      split.
      + intros [?|(l' & ? & ?)]; [exists l|exists l']; split; try done;
          [left|by right].
      + intros (l' & [->|?]%elem_of_cons & ?); [by left|right; eauto]. }
  specialize (H 0). simpl in H. rewrite <- H.
  split; [by intros [? _]|]. split; [done|apply not_elem_of_nil].
Qed.

Lemma elem_of_parameters (m : Module) (p : positive) :
  p ∈ parameters m ↔ p ∈ flat_map (fun c => (_parameters c).*2) (named_modules m).*2.
Proof.
  unfold parameters. rewrite elem_of_unique, flat_map_named.
  split; [tauto|]. split; [done|apply not_elem_of_nil].
Qed.

Lemma modules_children (pre : string → string) (ms : list (string * Module)) :
  (flat_map (fun '(name, c) => named_modules_from (pre name) c) ms).*2
  = flat_map (fun c => (named_modules c).*2) ms.*2.
Proof.
  induction ms as [|[name c] ms IH]; simpl; [done|].
  by rewrite fmap_app, IH, (named_modules_from_modules c (pre name) "").
Qed.

Lemma modules_Mod ps (ms : list (string * Module)) inf :
  (named_modules (Mod ps ms inf)).*2
  = Mod ps ms inf :: flat_map (fun c => (named_modules c).*2) ms.*2.
Proof.
  unfold named_modules. rewrite <- modules_children with (pre := fun name => name).
  reflexivity.
Qed.

Section ResNetDeepFashion.
Context {O : Type} `{!Kernels O}.
Variable BACKBONES : Registry.t (result Net).
Variable CLS_HEADS : Registry.t (Builder.ctor Head).

(** The parameters of the model are those of its backbone and those of
    its head. *)
Lemma elem_of_parameters_model (self : ResNetDeepFashion (O := O)) (p : positive) :
  p ∈ parameters (module_of self)
  ↔ p ∈ parameters (net_module (backbone self)) ∨
    ∃ head, cls_head self = Some head ∧ p ∈ parameters (head_module head).
Proof.
  unfold module_of. rewrite !elem_of_parameters, modules_Mod.
  remember (net_module (backbone self)) as NB.
  destruct (cls_head self) as [head|].
  - pose proof (elem_of_parameters (head_module head) p) as Hhead.
    remember (head_module head) as HM. simpl.
    rewrite app_nil_r, flat_map_app, elem_of_app, <- Hhead. split.
    + intros [?|?]; [by left|]. right. exists head. by subst.
    + intros [?|(? & [= <-] & ?)]; [by left|right]. by subst.
  - simpl. rewrite app_nil_r. split; [by left|]. by intros [?|(? & ? & _)].
Qed.

(** The parameters of a model the constructor returned are
    those of the children of the registered network but the last, and
    those of the head: the parameters of the last child, and any the
    network registered on itself, are no longer parameters of the model
    unless one of the other modules holds them too. *)
Theorem init_model_parameters (kwargs : gmap string value)
    (self : ResNetDeepFashion (O := O)) :
  __init__ BACKBONES CLS_HEADS kwargs = Ok self →
  ∃ name net head,
    kwargs !! "backbone" = Some (VStr name) ∧
    Registry.lookup BACKBONES name = Some (Ok net) ∧
    cls_head self = Some head ∧
    (∀ p, p ∈ parameters (module_of self) ↔
          (∃ l, l ∈ removelast (children net) ∧ p ∈ parameters (layer_module l)) ∨
          p ∈ parameters (head_module head)).
Proof.
  intros (name & net & final & W & ty & config & make & head & Hname & Hnet & _ & _
          & _ & _ & _ & _ & ->)%init_Ok.
  exists name, net, head. repeat split; try done; simpl.
  - intros [Hp|(head' & [= <-] & Hp)]%elem_of_parameters_model; simpl in *.
    + left. by apply elem_of_parameters_Sequential.
    + by right.
  - intros [Hp|Hp]; apply elem_of_parameters_model; simpl.
    + left. by apply elem_of_parameters_Sequential.
    + right. eauto.
Qed.

(** Freezing the backbone and then selecting with 'params' set to
    [None] collects the parameters of the head that required a gradient
    before and that the backbone does not hold, and no other. *)
Theorem freeze_then_collect (w : world (O := O)) (optimizer_cfg : value) (p : positive) :
  p ∈ (Builder.collect_params (heap (freeze_weights w).1) VNone
         (module_of (self (freeze_weights w).1)) ([], optimizer_cfg)).1.1
  ↔ (∃ head, cls_head (self w) = Some head ∧ p ∈ parameters (head_module head)) ∧
    (p ∉ parameters (net_module (backbone (self w)))) ∧
    requires_grad (heap w) p = true.
Proof.
  rewrite collect_params_none. simpl.
  rewrite list_elem_of_filter, elem_of_parameters_model.
  unfold requires_grad. rewrite foldl_set_requires_grad.
  destruct (bool_decide (p ∈ parameters (net_module (backbone (self w))))) eqn:Hb.
  - apply bool_decide_eq_true_1 in Hb.
    split; [|tauto]. intros [Hflag _]. by destruct (heap w !! p).
  - apply bool_decide_eq_false_1 in Hb.
    destruct (heap w !! p) as [st|]; simpl.
    + destruct (p_requires_grad st); simpl; (split; [tauto|]); [tauto|].
      by intros (_ & _ & ?).
    + split; [tauto|]. by intros (_ & _ & ?).
Qed.

(** In a model the constructor returned, the backbone is a
    sequence of the children of the registered network but the last, in
    their order, under the decimal numbers of their positions: the names
    the network gave them are gone, and with them every module path built
    from those names. *)
Theorem init_backbone_children (kwargs : gmap string value)
    (self : ResNetDeepFashion (O := O)) :
  __init__ BACKBONES CLS_HEADS kwargs = Ok self →
  ∃ name net,
    kwargs !! "backbone" = Some (VStr name) ∧
    Registry.lookup BACKBONES name = Some (Ok net) ∧
    children (backbone self) = removelast (children net) ∧
    (net_children (backbone self)).*1
    = pretty <$> seq 0 (length (children net) - 1) ∧
    net_parameters (backbone self) = [].
Proof.
  intros (name & net & final & W & ty & config & make & head & Hname & Hnet & _ & _
          & _ & _ & _ & _ & ->)%init_Ok.
  exists name, net. repeat split; try done; simpl; unfold children; simpl.
  - rewrite fmap_imap. rewrite (imap_ext _ (const id)) by done.
    by rewrite imap_const, list_fmap_id.
  - rewrite fmap_imap.
    rewrite (imap_ext _ (fun j _ => pretty j)) by done.
    rewrite imap_seq_0, removelast_firstn_len, length_take. do 2 f_equal. lia.
Qed.

End ResNetDeepFashion.

Lemma init_model_parameters_witness :
  ∃ name net head,
    Examples.model_cfg !! "backbone" = Some (VStr name) ∧
    Registry.lookup Examples.BACKBONES name = Some (Ok net) ∧
    cls_head Examples.model0 = Some head ∧
    (∀ p, p ∈ parameters (module_of Examples.model0) ↔
          (∃ l, l ∈ removelast (children net) ∧ p ∈ parameters (layer_module l)) ∨
          p ∈ parameters (head_module head)).
Proof.
  apply (init_model_parameters Examples.BACKBONES Examples.CLS_HEADS
           Examples.model_cfg Examples.model0).
  vm_compute. reflexivity.
Defined.

Lemma init_backbone_children_witness :
  ∃ name net,
    Examples.model_cfg !! "backbone" = Some (VStr name) ∧
    Registry.lookup Examples.BACKBONES name = Some (Ok net) ∧
    children (backbone Examples.model0) = removelast (children net) ∧
    (net_children (backbone Examples.model0)).*1
    = pretty <$> seq 0 (length (children net) - 1) ∧
    net_parameters (backbone Examples.model0) = [].
Proof.
  apply (init_backbone_children Examples.BACKBONES Examples.CLS_HEADS
           Examples.model_cfg Examples.model0).
  vm_compute. reflexivity.
Defined.

End ParameterFacts.
